(** * cm-sdk-react-native-v3 (New Architecture): the bridge, embedded in Rocq

    The development follows the layers of the package:

    - [src/NativeCmSdkReactNativeV3.ts]: the enumerated vocabulary, the data
      types of the TurboModule interface and the [BackgroundStyle] factory;
    - [src/index.tsx]: the JavaScript call surface, with
      [normalizeWebViewConfig], [setWebViewConfig] and [setATTStatus];
    - [ios/CmSdkReactNativeV3.mm]: the Objective-C++ TurboModule glue;
    - [ios/CmSdkReactNativeV3Impl.swift]: the Swift implementation, with the
      delegate callbacks, the link-click handler and the geometry resolver
      (the revision that maps the position and the background style).

    JavaScript numbers, Swift [Double] and [CGFloat] are IEEE 754 binary64
    values: they are modelled by Rocq's primitive floats.  JavaScript objects
    live in a heap and are passed by reference.  The native CMP SDK
    ([cm_sdk_ios_v3]), React Native's [processColor] and UIKit are external:
    they are taken as parameters. *)

From Stdlib Require Import PrimFloat FloatOps FloatAxioms SpecFloat.
From Stdlib Require Import Bool String Ascii List ZArith Lia.
Import ListNotations.

Local Open Scope string_scope.
Local Open Scope list_scope.

(* ===================================================================== *)
(** * JavaScript values *)
(* ===================================================================== *)

(** A JavaScript [number]. *)
Definition number : Set := float.

(** [SameValueZero], the comparison of [Set.prototype.has] and
    [Array.prototype.includes]: numeric equality, with [NaN] equal to itself
    and [+0] equal to [-0]. *)
Definition SameValueZero (a b : number) : bool :=
  PrimFloat.eqb a b || (PrimFloat.is_nan a && PrimFloat.is_nan b).

(** [ToBoolean] on a number: [+0], [-0] and [NaN] are falsy. *)
Definition truthy_number (a : number) : bool :=
  negb (PrimFloat.eqb a 0%float || PrimFloat.is_nan a).

(** [ToBoolean] on a string: only the empty string is falsy. *)
Definition truthy_string (s : string) : bool :=
  negb (String.eqb s "").

(** [a ?? b]: the nullish coalescing operator on an optional property. *)
Definition nullish {A : Type} (a : option A) (b : A) : A :=
  match a with
  | Some v => v
  | None => b
  end.

Infix "??" := nullish (at level 45, left associativity).

(** A color as the caller gives it: [string | number]. *)
Inductive ColorValue : Type :=
| ColorString (s : string)
| ColorNumber (n : number).

Definition truthy_color (c : ColorValue) : bool :=
  match c with
  | ColorString s => truthy_string s
  | ColorNumber n => truthy_number n
  end.

(** References into the JavaScript heap. *)
Definition loc : Set := nat.

(* ===================================================================== *)
(** * src/NativeCmSdkReactNativeV3.ts *)
(* ===================================================================== *)

(** ** Enumerated vocabulary *)

Module WebViewPosition.
Definition FullScreen : string := "fullScreen".
Definition HalfScreenTop : string := "halfScreenTop".
Definition HalfScreenBottom : string := "halfScreenBottom".
Definition Custom : string := "custom".
End WebViewPosition.

Module BackgroundStyleType.
Definition Dimmed : string := "dimmed".
Definition Color : string := "color".
Definition Blur : string := "blur".
Definition None : string := "none".
End BackgroundStyleType.

Module BlurEffectStyle.
Definition Light : string := "light".
Definition Dark : string := "dark".
Definition ExtraLight : string := "extraLight".
End BlurEffectStyle.

Module ATTStatus.
Definition NotDetermined : number := 0%float.
Definition Restricted : number := 1%float.
Definition Denied : number := 2%float.
Definition Authorized : number := 3%float.
End ATTStatus.

(** ** Data types *)

Module WebViewRect.
Record t : Type := mk {
  x : number;
  y : number;
  width : number;
  height : number
}.
End WebViewRect.

(** The members of the union [WebViewBackgroundStyle] are told apart at run
    time by the string [type] alone, and the normalizer has a branch for a tag
    outside the union: the object is modelled with an arbitrary tag and every
    payload property optional ([None] is [undefined] or absent). *)
Module WebViewBackgroundStyle.
Record t : Type := mk {
  type : string;
  color : option ColorValue;
  opacity : option number;
  blurEffectStyle : option string
}.
End WebViewBackgroundStyle.

(** [customRect] and [backgroundStyle] hold references to objects. *)
Module WebViewConfig.
Record t : Type := mk {
  position : option string;
  customRect : option loc;
  cornerRadius : option number;
  respectsSafeArea : option bool;
  allowsOrientationChanges : option bool;
  backgroundStyle : option loc
}.
End WebViewConfig.

(** ** The [BackgroundStyle] factory

    Each function returns an object literal; the value below is the content
    of that new object. *)

Module BackgroundStyle.
Definition dimmed (color : option ColorValue) (opacity : option number)
  : WebViewBackgroundStyle.t :=
  WebViewBackgroundStyle.mk "dimmed" color opacity None.

Definition color (color : option ColorValue) : WebViewBackgroundStyle.t :=
  WebViewBackgroundStyle.mk "color" color None None.

(** [blurEffectStyle: BlurEffectStyle = BlurEffectStyle.Dark]: the default
    applies when the argument is [undefined]. *)
Definition blur (blurEffectStyle : option string) : WebViewBackgroundStyle.t :=
  let blurEffectStyle :=
    match blurEffectStyle with
    | Some s => s
    | None => BlurEffectStyle.Dark
    end in
  WebViewBackgroundStyle.mk "blur" None None (Some blurEffectStyle).

Definition none : WebViewBackgroundStyle.t :=
  WebViewBackgroundStyle.mk "none" None None None.
End BackgroundStyle.

(** ** The TurboModule interface [Spec]

    A configuration crosses the bridge by value: the generated code reads the
    JavaScript object into a native structure. *)

Module NativeWebViewConfig.
Record t : Type := mk {
  position : option string;
  customRect : option WebViewRect.t;
  cornerRadius : option number;
  respectsSafeArea : option bool;
  allowsOrientationChanges : option bool;
  backgroundStyle : option WebViewBackgroundStyle.t
}.
End NativeWebViewConfig.

(** The settled outcome of the promise a native method returns. *)
Inductive Promise (A : Type) : Type :=
| Resolved (value : A)
| Rejected (code message : string).

Arguments Resolved {A} value.
Arguments Rejected {A} code message.

(** The methods of [Spec] used below, over the state [N] of the native
    module.  The remaining methods of the interface have the same shape as
    [exportCMPInfo] and [importCMPInfo]. *)
Record Spec (N : Type) : Type := {
  Spec_setWebViewConfig : NativeWebViewConfig.t -> N -> Promise unit * N;
  Spec_setATTStatus : number -> N -> Promise unit * N;
  Spec_exportCMPInfo : N -> Promise string * N;
  Spec_importCMPInfo : string -> N -> Promise bool * N
}.

Arguments Spec_setWebViewConfig {N} _ _ _.
Arguments Spec_setATTStatus {N} _ _ _.
Arguments Spec_exportCMPInfo {N} _ _.
Arguments Spec_importCMPInfo {N} _ _ _.

(* ===================================================================== *)
(** * src/index.tsx *)
(* ===================================================================== *)

(** ** The JavaScript heap, thrown errors and the effects of a call *)

Inductive object : Type :=
| Object_WebViewRect (rect : WebViewRect.t)
| Object_WebViewBackgroundStyle (style : WebViewBackgroundStyle.t)
| Object_WebViewConfig (config : WebViewConfig.t).

(** The values thrown by the module, one constructor per [new Error(...)]
    with the interpolated value as argument.  [TypeError] is what reading a
    property through a reference that holds no object of the expected shape
    gives; a heap built from typed values never raises it. *)
Inductive Error : Type :=
| TypeError
| Error_InvalidPosition (position : string)
| Error_CustomRectRequired
| Error_ColorRequired
| Error_InvalidBlurEffectStyle (blurStyle : string)
| Error_InvalidBackgroundStyleType (type : string)
| Error_InvalidColorValue (color : ColorValue)
| Error_InvalidATTStatus (status : number).

(** A call that crossed the bridge, with its arguments as the native side
    receives them. *)
Inductive BridgeCall : Type :=
| Call_setWebViewConfig (config : NativeWebViewConfig.t)
| Call_setATTStatus (status : number)
| Call_exportCMPInfo
| Call_importCMPInfo (cmpString : string).

(** What a JavaScript call can read and change: the heap, the console (the
    [console.warn] lines), the trace of calls that crossed the bridge, and the
    state of the native module. *)
Record Realm (N : Type) : Type := mkRealm {
  heap : list object;
  console : list string;
  bridge : list BridgeCall;
  native : N
}.

Arguments mkRealm {N} heap console bridge native.
Arguments heap {N} _.
Arguments console {N} _.
Arguments bridge {N} _.
Arguments native {N} _.

Inductive Completion (A : Type) : Type :=
| Normal (value : A)
| Throw (error : Error).

Arguments Normal {A} value.
Arguments Throw {A} error.

Definition JS (N A : Type) : Type := Realm N -> Completion A * Realm N.

Definition ret {N A : Type} (a : A) : JS N A :=
  fun r => (Normal a, r).

Definition bind {N A B : Type} (c : JS N A) (k : A -> JS N B) : JS N B :=
  fun r =>
    match c r with
    | (Normal a, r') => k a r'
    | (Throw e, r') => (Throw e, r')
    end.

Definition throw {N A : Type} (e : Error) : JS N A :=
  fun r => (Throw e, r).

Declare Scope js_scope.
Delimit Scope js_scope with js.
Notation "x <- c ;; k" := (bind c (fun x => k))
  (at level 61, c at next level, right associativity) : js_scope.
Notation "c ;; k" := (bind c (fun _ => k))
  (at level 61, right associativity) : js_scope.

(** [console.warn(message)] *)
Definition console_warn {N : Type} (message : string) : JS N unit :=
  fun r => (Normal tt, mkRealm (heap r) (console r ++ [message]) (bridge r) (native r)).

(** An object literal: a new object at a new reference. *)
Definition new {N : Type} (o : object) : JS N loc :=
  fun r => (Normal (length (heap r)),
            mkRealm (heap r ++ [o]) (console r) (bridge r) (native r)).

Definition get_WebViewConfig {N : Type} (l : loc) : JS N WebViewConfig.t :=
  fun r =>
    match nth_error (heap r) l with
    | Some (Object_WebViewConfig c) => (Normal c, r)
    | _ => (Throw TypeError, r)
    end.

Definition get_WebViewBackgroundStyle {N : Type} (l : loc)
  : JS N WebViewBackgroundStyle.t :=
  fun r =>
    match nth_error (heap r) l with
    | Some (Object_WebViewBackgroundStyle s) => (Normal s, r)
    | _ => (Throw TypeError, r)
    end.

(** Reading a configuration by value, as the generated bridge code does. *)
Definition read_customRect (h : list object) (l : option loc)
  : option (option WebViewRect.t) :=
  match l with
  | None => Some None
  | Some l =>
      match nth_error h l with
      | Some (Object_WebViewRect rect) => Some (Some rect)
      | _ => None
      end
  end.

Definition read_backgroundStyle (h : list object) (l : option loc)
  : option (option WebViewBackgroundStyle.t) :=
  match l with
  | None => Some None
  | Some l =>
      match nth_error h l with
      | Some (Object_WebViewBackgroundStyle style) => Some (Some style)
      | _ => None
      end
  end.

Definition read_WebViewConfig (h : list object) (l : loc)
  : option NativeWebViewConfig.t :=
  match nth_error h l with
  | Some (Object_WebViewConfig c) =>
      match read_customRect h (WebViewConfig.customRect c),
            read_backgroundStyle h (WebViewConfig.backgroundStyle c) with
      | Some rect, Some style =>
          Some (NativeWebViewConfig.mk
                  (WebViewConfig.position c) rect
                  (WebViewConfig.cornerRadius c)
                  (WebViewConfig.respectsSafeArea c)
                  (WebViewConfig.allowsOrientationChanges c) style)
      | _, _ => None
      end
  | _ => None
  end.

(** Invoking a method of the native module: the call is recorded and the
    method runs on the native state. *)
Definition invoke {N A : Type} (call : BridgeCall) (method : N -> Promise A * N)
  : JS N (Promise A) :=
  fun r =>
    let (p, n) := method (native r) in
    (Normal p, mkRealm (heap r) (console r) (bridge r ++ [call]) n).

Local Open Scope js_scope.

Section Index.
Context {N : Type}.

(** The native module, [Platform.OS] and React Native's [processColor]. *)
Variable CmSdkReactNativeV3 : Spec N.
Variable Platform_OS : string.
Variable processColor : ColorValue -> option number.

Definition normalizeColor (color : option ColorValue) : JS N (option number) :=
  match color with
  | None => ret None
  | Some c =>
      match processColor c with
      | None => throw (Error_InvalidColorValue c)
      | Some processed => ret (Some processed)
      end
  end.

Definition allowedPositions : list string :=
  [ WebViewPosition.FullScreen;
    WebViewPosition.HalfScreenTop;
    WebViewPosition.HalfScreenBottom;
    WebViewPosition.Custom ].

(** The immediately invoked arrow function that computes
    [backgroundStyle] inside [normalizeWebViewConfig]. *)
Definition normalizeBackgroundStyle (config : WebViewConfig.t) : JS N loc :=
  match WebViewConfig.backgroundStyle config with
  | None =>
      color <- normalizeColor (Some (ColorString "black")) ;;
      new (Object_WebViewBackgroundStyle
             (WebViewBackgroundStyle.mk
                BackgroundStyleType.Dimmed
                (option_map ColorNumber color) (Some 0.5%float) None))
  | Some backgroundStyle =>
      style <- get_WebViewBackgroundStyle backgroundStyle ;;
      let type := WebViewBackgroundStyle.type style in
      if String.eqb type BackgroundStyleType.Dimmed then
        color <- normalizeColor
                   (Some (WebViewBackgroundStyle.color style ?? ColorString "black")) ;;
        new (Object_WebViewBackgroundStyle
               (WebViewBackgroundStyle.mk
                  type (option_map ColorNumber color)
                  (Some (WebViewBackgroundStyle.opacity style ?? 0.5%float))
                  None))
      else if String.eqb type BackgroundStyleType.Color then
        match WebViewBackgroundStyle.color style with
        | Some c =>
            if truthy_color c then
              color <- normalizeColor (Some c) ;;
              new (Object_WebViewBackgroundStyle
                     (WebViewBackgroundStyle.mk
                        type (option_map ColorNumber color) None None))
            else throw Error_ColorRequired
        | None => throw Error_ColorRequired
        end
      else if String.eqb type BackgroundStyleType.Blur then
        let blurStyle :=
          WebViewBackgroundStyle.blurEffectStyle style ?? BlurEffectStyle.Dark in
        if negb (String.eqb blurStyle BlurEffectStyle.Dark)
           && negb (String.eqb blurStyle BlurEffectStyle.Light)
           && negb (String.eqb blurStyle BlurEffectStyle.ExtraLight)
        then throw (Error_InvalidBlurEffectStyle blurStyle)
        else
          (if String.eqb Platform_OS "android"
           then console_warn
                  "[cm-sdk-react-native-v3] Android SDK ignores blur; using dimmed."
           else ret tt) ;;
          new (Object_WebViewBackgroundStyle
                 (WebViewBackgroundStyle.mk type None None (Some blurStyle)))
      else if String.eqb type BackgroundStyleType.None then
        new (Object_WebViewBackgroundStyle
               (WebViewBackgroundStyle.mk type None None None))
      else throw (Error_InvalidBackgroundStyleType type)
  end.

(** The statement [if (position === WebViewPosition.Custom) { ... }] of
    [normalizeWebViewConfig]. *)
Definition requireCustomRect (cfg : WebViewConfig.t) (position : string)
  : JS N unit :=
  if String.eqb position WebViewPosition.Custom then
    match WebViewConfig.customRect cfg with
    | None => throw Error_CustomRectRequired
    | Some _ =>
        if String.eqb Platform_OS "android"
        then console_warn
               "[cm-sdk-react-native-v3] Android SDK ignores customRect; falling back to full screen."
        else ret tt
    end
  else ret tt.

Definition normalizeWebViewConfig (config : loc) : JS N loc :=
  cfg <- get_WebViewConfig config ;;
  let position := WebViewConfig.position cfg ?? WebViewPosition.FullScreen in
  if negb (existsb (String.eqb position) allowedPositions)
  then throw (Error_InvalidPosition position)
  else
    requireCustomRect cfg position ;;
    backgroundStyle <- normalizeBackgroundStyle cfg ;;
    (if String.eqb Platform_OS "android"
        && match WebViewConfig.backgroundStyle cfg with
           | Some _ => true
           | None => false
           end
     then console_warn
            "[cm-sdk-react-native-v3] Android SDK ignores backgroundStyle; using dimmed."
     else ret tt) ;;
    new (Object_WebViewConfig
           (WebViewConfig.mk
              (Some position)
              (WebViewConfig.customRect cfg)
              (Some (WebViewConfig.cornerRadius cfg ?? 5%float))
              (Some (WebViewConfig.respectsSafeArea cfg ?? true))
              (Some (WebViewConfig.allowsOrientationChanges cfg ?? true))
              (Some backgroundStyle))).

Definition setWebViewConfig (config : loc) : JS N (Promise unit) :=
  normalized <- normalizeWebViewConfig config ;;
  fun r =>
    match read_WebViewConfig (heap r) normalized with
    | Some arg =>
        invoke (Call_setWebViewConfig arg)
               (Spec_setWebViewConfig CmSdkReactNativeV3 arg) r
    | None => (Throw TypeError, r)
    end.

Definition setATTStatus (status : number) : JS N (Promise unit) :=
  let allowed :=
    [ ATTStatus.NotDetermined; ATTStatus.Restricted;
      ATTStatus.Denied; ATTStatus.Authorized ] in
  if negb (existsb (fun a => SameValueZero a status) allowed)
  then throw (Error_InvalidATTStatus status)
  else invoke (Call_setATTStatus status)
              (Spec_setATTStatus CmSdkReactNativeV3 status).



End Index.

Local Close Scope js_scope.

(** ** The Jest mock of [react-native] used by the tests *)

Definition mock_processColor (color : ColorValue) : option number :=
  match color with
  | ColorString s =>
      if String.eqb s "invalid-color-xyz" then None else Some 4278190080%float
  | ColorNumber n => Some n
  end.

Definition mockNativeModule : Spec unit := {|
  Spec_setWebViewConfig := fun _ n => (Resolved tt, n);
  Spec_setATTStatus := fun _ n => (Resolved tt, n);
  Spec_exportCMPInfo := fun n => (Resolved "exported-cmp-string", n);
  Spec_importCMPInfo := fun _ n => (Resolved true, n)
|}.

(* ===================================================================== *)
(** * ios/CmSdkReactNativeV3.mm and ios/CmSdkReactNativeV3Impl.swift *)
(* ===================================================================== *)

(** ** The dictionaries the glue hands to Swift

    A [[String: Any]] whose keys are known is a record of optional entries;
    an entry is present when the key is set with a value of the type the
    Swift code casts it to. *)

Module RectDictionary.
Record t : Type := mk {
  x : option float;
  y : option float;
  width : option float;
  height : option float
}.
End RectDictionary.

Module BackgroundDictionary.
Record t : Type := mk {
  type : option string;
  color : option ColorValue;
  opacity : option float;
  blurEffectStyle : option string
}.
End BackgroundDictionary.

Module ConfigDictionary.
Record t : Type := mk {
  position : option string;
  cornerRadius : option float;
  respectsSafeArea : option bool;
  allowsOrientationChanges : option bool;
  customRect : option RectDictionary.t;
  backgroundStyle : option BackgroundDictionary.t
}.
End ConfigDictionary.

(** ** UIKit and SDK types *)

Module UIEdgeInsets.
Record t : Type := mk {
  top : float;
  left : float;
  bottom : float;
  right : float
}.
Definition zero : t := mk 0%float 0%float 0%float 0%float.
End UIEdgeInsets.

Module CGRect.
Record t : Type := mk {
  x : float;
  y : float;
  width : float;
  height : float
}.
End CGRect.

(** What the geometry resolver reads from UIKit: the safe-area insets of the
    key window of the active scene, when there is one, and
    [UIScreen.main.bounds]. *)
Record Screen : Type := mkScreen {
  keyWindow_safeAreaInsets : option UIEdgeInsets.t;
  UIScreen_main_bounds : CGRect.t
}.

(** The cases of the SDK's [Position] that the bridge builds. *)
Inductive Position : Type :=
| Position_fullScreen
| Position_custom (rect : CGRect.t).

Inductive UIBlurEffect_Style : Type :=
| UIBlurEffect_extraLight
| UIBlurEffect_light
| UIBlurEffect_dark.

Inductive SdkBackgroundStyle (UIColor : Type) : Type :=
| Background_dimmed (color : UIColor) (opacity : float)
| Background_color (color : UIColor)
| Background_blur (style : UIBlurEffect_Style)
| Background_none.

Arguments Background_dimmed {UIColor} color opacity.
Arguments Background_color {UIColor} color.
Arguments Background_blur {UIColor} style.
Arguments Background_none {UIColor}.

Record ConsentLayerUIConfig (UIColor : Type) : Type := mkUIConfig {
  ui_position : Position;
  ui_backgroundStyle : SdkBackgroundStyle UIColor;
  ui_cornerRadius : float;
  ui_respectsSafeArea : bool;
  ui_allowsOrientationChanges : bool
}.

Arguments mkUIConfig {UIColor} _ _ _ _ _.

(** The methods of [CMPManager] the bridge calls below, over the state [S] of
    the SDK.  A method with a completion handler is modelled by the argument
    its completion receives: for [importCMPInfo], the error, as its
    [localizedDescription], or [None]. *)
Record CMPManager (UIColor S : Type) : Type := {
  CMPManager_setWebViewConfig : ConsentLayerUIConfig UIColor -> S -> S;
  CMPManager_setATTStatus : Z -> S -> S;
  CMPManager_exportCMPInfo : S -> string * S;
  CMPManager_importCMPInfo : string -> S -> option string * S
}.

Arguments CMPManager_setWebViewConfig {UIColor S} _ _ _.
Arguments CMPManager_setATTStatus {UIColor S} _ _ _.
Arguments CMPManager_exportCMPInfo {UIColor S} _ _.
Arguments CMPManager_importCMPInfo {UIColor S} _ _ _.

(** ** Events sent to JavaScript *)

#[warnings="-register-all"] Inductive Any : Type :=
| Any_String (s : string)
| Any_Int (n : Z)
| Any_Double (d : float)
| Any_Dictionary (entries : list (string * Any)).

Record Event : Type := mkEvent {
  event_name : string;
  event_body : option (list (string * Any))
}.

(** ** The stored properties of [CmSdkReactNativeV3Impl]

    [eventEmitter] is a weak reference: [true] while the emitter is alive. *)
Record Impl : Type := mkImpl {
  eventEmitter : bool;
  hasListeners : bool;
  isConsentLayerShown : bool;
  shouldHandleLinkClicks : bool
}.

(** [init(eventEmitter:)] *)
Definition Impl_init : Impl := mkImpl true false false false.

(** [String.contains(_:)] on two strings. *)
Fixpoint contains (s sub : string) : bool :=
  String.prefix sub s
  || match s with
     | EmptyString => false
     | String _ rest => contains rest sub
     end.

Definition sendEvent (self : Impl) (name : string)
  (body : option (list (string * Any))) : list Event :=
  if eventEmitter self then [mkEvent name body] else [].

(** The closure given to [setLinkClickHandler]; [self] is captured weakly.
    It returns the events sent and the closure's result. *)
Definition linkClickHandler (self : option Impl) (urlString : string)
  : list Event * bool :=
  match self with
  | Some strongSelf =>
      if shouldHandleLinkClicks strongSelf then
        (sendEvent strongSelf "onClickLink" (Some [("url", Any_String urlString)]),
         if negb (contains urlString "google.com")
            || contains urlString "privacy"
            || contains urlString "terms"
         then true else false)
      else ([], false)
  | None => ([], false)
  end.

(** *** [CMPManagerDelegate] methods *)

Definition didReceiveConsent (self : Impl) (consent : string)
  (jsonObject : list (string * Any)) : Impl * list Event :=
  (self, sendEvent self "didReceiveConsent"
           (Some [("consent", Any_String consent);
                  ("jsonObject", Any_Dictionary jsonObject)])).

Definition didShowConsentLayer (self : Impl) : Impl * list Event :=
  let self := mkImpl (eventEmitter self) (hasListeners self) true
                     (shouldHandleLinkClicks self) in
  let self := mkImpl (eventEmitter self) (hasListeners self)
                     (isConsentLayerShown self) true in
  (self, sendEvent self "didShowConsentLayer" None).

Definition didCloseConsentLayer (self : Impl) : Impl * list Event :=
  if isConsentLayerShown self then
    let self := mkImpl (eventEmitter self) (hasListeners self) false
                       (shouldHandleLinkClicks self) in
    let self := mkImpl (eventEmitter self) (hasListeners self)
                       (isConsentLayerShown self) false in
    (self, sendEvent self "didCloseConsentLayer" None)
  else (self, []).

Definition didReceiveError (self : Impl) (error : string) : Impl * list Event :=
  (self, sendEvent self "didReceiveError" (Some [("error", Any_String error)])).

(** [lastUpdated] is a [Date?], given by its [timeIntervalSince1970]. *)
Definition didChangeATTStatus (self : Impl) (oldStatus newStatus : Z)
  (lastUpdated : option float) : Impl * list Event :=
  (self, sendEvent self "didChangeATTStatus"
           (Some [("oldStatus", Any_Int oldStatus);
                  ("newStatus", Any_Int newStatus);
                  ("lastUpdated", Any_Double (lastUpdated ?? 0%float))])).

(** *** What the SDK and the runtime can do to the delegate *)

Inductive Callback : Type :=
| Callback_didReceiveConsent (consent : string) (jsonObject : list (string * Any))
| Callback_didShowConsentLayer
| Callback_didCloseConsentLayer
| Callback_didReceiveError (error : string)
| Callback_didChangeATTStatus (oldStatus newStatus : Z) (lastUpdated : option float)
| Callback_linkClick (urlString : string)
| Callback_emitterReleased.

Definition deliver (self : Impl) (c : Callback) : Impl * list Event :=
  match c with
  | Callback_didReceiveConsent consent jsonObject =>
      didReceiveConsent self consent jsonObject
  | Callback_didShowConsentLayer => didShowConsentLayer self
  | Callback_didCloseConsentLayer => didCloseConsentLayer self
  | Callback_didReceiveError error => didReceiveError self error
  | Callback_didChangeATTStatus oldStatus newStatus lastUpdated =>
      didChangeATTStatus self oldStatus newStatus lastUpdated
  | Callback_linkClick urlString =>
      (self, fst (linkClickHandler (Some self) urlString))
  | Callback_emitterReleased =>
      (mkImpl false (hasListeners self) (isConsentLayerShown self)
              (shouldHandleLinkClicks self), [])
  end.

(** The delegate after a sequence of callbacks, and the events sent, in
    order. *)
Fixpoint deliver_all (self : Impl) (cs : list Callback) : Impl * list Event :=
  match cs with
  | [] => (self, [])
  | c :: cs =>
      let (self1, sent1) := deliver self c in
      let (self2, sent2) := deliver_all self1 cs in
      (self2, sent1 ++ sent2)
  end.

(** The states the delegate can be in. *)
Inductive reachable : Impl -> Prop :=
| reachable_init : reachable Impl_init
| reachable_deliver (self : Impl) (c : Callback) :
    reachable self -> reachable (fst (deliver self c)).

(** ** The geometry resolver and the promise methods *)

Section IOS.
(** UIKit colors and [RCTConvert.uiColor], the SDK and its state. *)
Variable UIColor : Type.
Variable UIColor_black : UIColor.
Variable RCTConvert_uiColor : ColorValue -> option UIColor.
Variable S : Type.
Variable cmpManager : CMPManager UIColor S.

(** The native module: the Swift object, the SDK singleton and the screen. *)
Record IOS : Type := mkIOS {
  impl : Impl;
  shared : S;
  screen : Screen
}.

Definition currentSafeAreaInsets (scr : Screen) : UIEdgeInsets.t :=
  keyWindow_safeAreaInsets scr ?? UIEdgeInsets.zero.

Definition rectFromDictionary (scr : Screen) (dict : RectDictionary.t)
  (respectsSafeArea : bool) : option CGRect.t :=
  match RectDictionary.x dict, RectDictionary.y dict,
        RectDictionary.width dict, RectDictionary.height dict with
  | Some x, Some y, Some width, Some height =>
      let insets :=
        if respectsSafeArea then currentSafeAreaInsets scr
        else UIEdgeInsets.zero in
      Some (CGRect.mk
              (x + UIEdgeInsets.left insets)
              (y + UIEdgeInsets.top insets)
              (width - (UIEdgeInsets.left insets + UIEdgeInsets.right insets))
              (height - (UIEdgeInsets.top insets + UIEdgeInsets.bottom insets)))%float
  | _, _, _, _ => None
  end.

(** The first [if let] chain of [mapPosition]. *)
Definition customRectOf (scr : Screen) (config : ConfigDictionary.t)
  (respectsSafeArea : bool) : option CGRect.t :=
  match ConfigDictionary.position config with
  | Some positionValue =>
      if String.eqb positionValue "custom" then
        match ConfigDictionary.customRect config with
        | Some rectValue => rectFromDictionary scr rectValue respectsSafeArea
        | None => None
        end
      else None
  | None => None
  end.

Definition mapPosition (scr : Screen) (config : ConfigDictionary.t)
  (respectsSafeArea : bool) : Position :=
  match customRectOf scr config respectsSafeArea with
  | Some rect => Position_custom rect
  | None =>
      let insets := currentSafeAreaInsets scr in
      let screenBounds := UIScreen_main_bounds scr in
      let usableHeight :=
        (CGRect.height screenBounds
         - (if respectsSafeArea
            then UIEdgeInsets.top insets + UIEdgeInsets.bottom insets
            else 0))%float in
      let halfHeight := (usableHeight / 2)%float in
      match ConfigDictionary.position config with
      | None => Position_fullScreen
      | Some positionValue =>
          if String.eqb positionValue "halfScreenTop" then
            let originY :=
              if respectsSafeArea then UIEdgeInsets.top insets else 0%float in
            Position_custom
              (CGRect.mk 0%float originY (CGRect.width screenBounds) halfHeight)
          else if String.eqb positionValue "halfScreenBottom" then
            let originY :=
              ((if respectsSafeArea then UIEdgeInsets.top insets else 0)
               + halfHeight)%float in
            Position_custom
              (CGRect.mk 0%float originY (CGRect.width screenBounds) halfHeight)
          else Position_fullScreen
      end
  end.

Definition mapBackgroundStyle (config : ConfigDictionary.t)
  : SdkBackgroundStyle UIColor :=
  match ConfigDictionary.backgroundStyle config with
  | Some backgroundConfig =>
      match BackgroundDictionary.type backgroundConfig with
      | Some type =>
          if String.eqb type "dimmed" then
            let colorInput :=
              BackgroundDictionary.color backgroundConfig ?? ColorString "black" in
            let color := RCTConvert_uiColor colorInput ?? UIColor_black in
            let opacity := BackgroundDictionary.opacity backgroundConfig ?? 0.5%float in
            Background_dimmed color opacity
          else if String.eqb type "color" then
            let colorInput :=
              BackgroundDictionary.color backgroundConfig ?? ColorString "black" in
            let color := RCTConvert_uiColor colorInput ?? UIColor_black in
            Background_color color
          else if String.eqb type "blur" then
            let styleString :=
              BackgroundDictionary.blurEffectStyle backgroundConfig ?? "dark" in
            let blurStyle :=
              if String.eqb styleString "extraLight" then UIBlurEffect_extraLight
              else if String.eqb styleString "light" then UIBlurEffect_light
              else UIBlurEffect_dark in
            Background_blur blurStyle
          else if String.eqb type "none" then Background_none
          else Background_dimmed UIColor_black 0.5%float
      | None => Background_dimmed UIColor_black 0.5%float
      end
  | None => Background_dimmed UIColor_black 0.5%float
  end.

(** *** Swift: the promise methods *)

Definition Impl_setWebViewConfig (config : ConfigDictionary.t) (n : IOS)
  : Promise unit * IOS :=
  let cornerRadius := ConfigDictionary.cornerRadius config ?? 5%float in
  let respectsSafeArea := ConfigDictionary.respectsSafeArea config ?? true in
  let allowsOrientationChanges :=
    ConfigDictionary.allowsOrientationChanges config ?? true in
  let position := mapPosition (screen n) config respectsSafeArea in
  let backgroundStyle := mapBackgroundStyle config in
  let uiConfig :=
    mkUIConfig position backgroundStyle cornerRadius respectsSafeArea
               allowsOrientationChanges in
  (Resolved tt,
   mkIOS (impl n) (CMPManager_setWebViewConfig cmpManager uiConfig (shared n))
         (screen n)).

Definition Impl_setATTStatus (status : Z) (n : IOS) : Promise unit * IOS :=
  (Resolved tt,
   mkIOS (impl n) (CMPManager_setATTStatus cmpManager status (shared n)) (screen n)).

Definition Impl_exportCMPInfo (n : IOS) : Promise string * IOS :=
  let (info, s) := CMPManager_exportCMPInfo cmpManager (shared n) in
  (Resolved info, mkIOS (impl n) s (screen n)).

Definition Impl_importCMPInfo (cmpString : string) (n : IOS)
  : Promise bool * IOS :=
  let (error, s) := CMPManager_importCMPInfo cmpManager cmpString (shared n) in
  (match error with
   | Some localizedDescription =>
       Rejected "ERROR" ("Failed to import CMP info: " ++ localizedDescription)
   | None => Resolved true
   end,
   mkIOS (impl n) s (screen n)).

(** *** Objective-C++: the TurboModule methods *)

Definition configDict (config : NativeWebViewConfig.t) : ConfigDictionary.t :=
  ConfigDictionary.mk
    (NativeWebViewConfig.position config)
    (NativeWebViewConfig.cornerRadius config)
    (NativeWebViewConfig.respectsSafeArea config)
    (NativeWebViewConfig.allowsOrientationChanges config)
    (option_map
       (fun rect =>
          RectDictionary.mk
            (Some (WebViewRect.x rect)) (Some (WebViewRect.y rect))
            (Some (WebViewRect.width rect)) (Some (WebViewRect.height rect)))
       (NativeWebViewConfig.customRect config))
    (option_map
       (fun bgStyle =>
          BackgroundDictionary.mk
            (Some (WebViewBackgroundStyle.type bgStyle))
            (WebViewBackgroundStyle.color bgStyle)
            (WebViewBackgroundStyle.opacity bgStyle)
            (WebViewBackgroundStyle.blurEffectStyle bgStyle))
       (NativeWebViewConfig.backgroundStyle config)).

(** [(NSInteger)status]: the integer part of a finite double.  The cast is
    undefined on [NaN], the infinities and values outside the range of
    [NSInteger]; the first two are mapped to [0] here. *)
Definition NSInteger_of_double (status : float) : Z :=
  match Prim2SF status with
  | S754_finite sign m e =>
      let magnitude :=
        if (0 <=? e)%Z then (Z.pos m * 2 ^ e)%Z else (Z.pos m / 2 ^ (- e))%Z in
      if sign then (- magnitude)%Z else magnitude
  | _ => 0%Z
  end.

Definition TurboModule : Spec IOS := {|
  Spec_setWebViewConfig := fun config => Impl_setWebViewConfig (configDict config);
  Spec_setATTStatus := fun status => Impl_setATTStatus (NSInteger_of_double status);
  Spec_exportCMPInfo := Impl_exportCMPInfo;
  Spec_importCMPInfo := Impl_importCMPInfo
|}.

End IOS.

Arguments mkIOS {S} impl shared screen.
Arguments impl {S} _.
Arguments shared {S} _.
Arguments screen {S} _.
Arguments TurboModule {UIColor} UIColor_black RCTConvert_uiColor {S} cmpManager.

(* ===================================================================== *)
(** * The vocabulary of the statements *)
(* ===================================================================== *)

(** ** On the JavaScript side *)

(** [r'] is [r] with the objects [fresh] added to the heap: every object of
    [r] is where it was and as it was, and the bridge trace and the native
    module are the same.  Only the console may differ. *)
Definition extends {N : Type} (r r' : Realm N) (fresh : list object) : Prop :=
  heap r' = heap r ++ fresh /\ bridge r' = bridge r /\ native r' = native r.

Definition is_none {A : Type} (a : option A) : bool :=
  match a with
  | Some _ => false
  | None => true
  end.

Definition throws {A : Type} (c : Completion A) : bool :=
  match c with
  | Normal _ => false
  | Throw _ => true
  end.

(** The configurations [normalizeWebViewConfig] refuses, on the configuration
    and on the object its [backgroundStyle] refers to: a position outside the
    four, ["custom"] without [customRect], and a background style with an
    unresolvable color, a ["color"] style whose color is absent or falsy, a
    blur style outside the three, or a tag outside the four. *)
Definition rejects_backgroundStyle (processColor : ColorValue -> option number)
  (style : option WebViewBackgroundStyle.t) : bool :=
  match style with
  | None => is_none (processColor (ColorString "black"))
  | Some s =>
      let type := WebViewBackgroundStyle.type s in
      (String.eqb type "dimmed"
       && is_none (processColor
                     (WebViewBackgroundStyle.color s ?? ColorString "black")))
      || (String.eqb type "color"
          && match WebViewBackgroundStyle.color s with
             | None => true
             | Some c => negb (truthy_color c) || is_none (processColor c)
             end)
      || (String.eqb type "blur"
          && negb (existsb
                     (String.eqb
                        (WebViewBackgroundStyle.blurEffectStyle s ?? "dark"))
                     ["light"; "dark"; "extraLight"]))
      || negb (existsb (String.eqb type) ["dimmed"; "color"; "blur"; "none"])
  end.

Definition rejects (processColor : ColorValue -> option number)
  (cfg : WebViewConfig.t) (style : option WebViewBackgroundStyle.t) : bool :=
  let position := WebViewConfig.position cfg ?? "fullScreen" in
  negb (existsb (String.eqb position)
          ["fullScreen"; "halfScreenTop"; "halfScreenBottom"; "custom"])
  || (String.eqb position "custom" && is_none (WebViewConfig.customRect cfg))
  || rejects_backgroundStyle processColor style.

(** The same list with the case of the ["color"] style as the specification
    words it: the color is absent, or it cannot be resolved. *)
Definition specified_rejects_backgroundStyle
  (processColor : ColorValue -> option number)
  (style : option WebViewBackgroundStyle.t) : bool :=
  match style with
  | None => is_none (processColor (ColorString "black"))
  | Some s =>
      let type := WebViewBackgroundStyle.type s in
      (String.eqb type "dimmed"
       && is_none (processColor
                     (WebViewBackgroundStyle.color s ?? ColorString "black")))
      || (String.eqb type "color"
          && match WebViewBackgroundStyle.color s with
             | None => true
             | Some c => is_none (processColor c)
             end)
      || (String.eqb type "blur"
          && negb (existsb
                     (String.eqb
                        (WebViewBackgroundStyle.blurEffectStyle s ?? "dark"))
                     ["light"; "dark"; "extraLight"]))
      || negb (existsb (String.eqb type) ["dimmed"; "color"; "blur"; "none"])
  end.

Definition specified_rejects (processColor : ColorValue -> option number)
  (cfg : WebViewConfig.t) (style : option WebViewBackgroundStyle.t) : bool :=
  let position := WebViewConfig.position cfg ?? "fullScreen" in
  negb (existsb (String.eqb position)
          ["fullScreen"; "halfScreenTop"; "halfScreenBottom"; "custom"])
  || (String.eqb position "custom" && is_none (WebViewConfig.customRect cfg))
  || specified_rejects_backgroundStyle processColor style.

(** Example heaps: [{position: 'halfScreenBottom'}] alone;
    [{backgroundStyle: BackgroundStyle.color(0)}] after its style object; and
    [{position: 'fullScreen', customRect: {x: -10, y: -20, width: 0,
    height: -5}}] after its rectangle. *)
Definition halfScreenBottom_heap : list object :=
  [ Object_WebViewConfig
      (WebViewConfig.mk (Some "halfScreenBottom") None None None None None) ].

Definition color_zero_config : WebViewConfig.t :=
  WebViewConfig.mk None None None None None (Some 0).

Definition color_zero_heap : list object :=
  [ Object_WebViewBackgroundStyle
      (BackgroundStyle.color (Some (ColorNumber 0%float)));
    Object_WebViewConfig color_zero_config ].



(** ** On the native side *)

Definition event_didShowConsentLayer : Event :=
  mkEvent "didShowConsentLayer" None.

Definition event_didCloseConsentLayer : Event :=
  mkEvent "didCloseConsentLayer" None.

(** In a trace of events, every [didCloseConsentLayer] comes after a
    [didShowConsentLayer] with no other [didCloseConsentLayer] between the
    two; [shown] tells whether such a show was sent before the trace. *)
Fixpoint closes_follow_shows (shown : bool) (sent : list Event) : bool :=
  match sent with
  | [] => true
  | e :: rest =>
      if String.eqb (event_name e) "didShowConsentLayer" then
        closes_follow_shows true rest
      else if String.eqb (event_name e) "didCloseConsentLayer" then
        shown && closes_follow_shows false rest
      else closes_follow_shows shown rest
  end.

(** The top edge and the height of the area a half-screen layer splits: the
    top inset and what the top and bottom insets leave of the screen when the
    safe area is respected, [0] and the whole screen otherwise. *)
Definition top_edge (scr : Screen) (respectsSafeArea : bool) : float :=
  if respectsSafeArea
  then UIEdgeInsets.top (currentSafeAreaInsets scr)
  else 0%float.

Definition usable_height (scr : Screen) (respectsSafeArea : bool) : float :=
  if respectsSafeArea
  then (CGRect.height (UIScreen_main_bounds scr)
        - (UIEdgeInsets.top (currentSafeAreaInsets scr)
           + UIEdgeInsets.bottom (currentSafeAreaInsets scr)))%float
  else CGRect.height (UIScreen_main_bounds scr).

(** A screen of 390 by 844 points with insets of 47 at the top and 34 at the
    bottom, and an SDK that keeps the CMP string it is given and refuses the
    empty one. *)
Definition iPhone : Screen :=
  mkScreen (Some (UIEdgeInsets.mk 47 0 34 0)) (CGRect.mk 0 0 390 844).

Definition example_cmpManager : CMPManager unit string := {|
  CMPManager_setWebViewConfig := fun _ s => s;
  CMPManager_setATTStatus := fun _ s => s;
  CMPManager_exportCMPInfo := fun s => (s, s);
  CMPManager_importCMPInfo := fun cmpString s =>
    if String.eqb cmpString "" then (Some "empty CMP string", s)
    else (None, cmpString)
|}.

(** Closes a goal on a call that returned a new style object. *)
Ltac new_style :=
  eexists; split;
  [reflexivity|split; [unfold extends; simpl; auto|discriminate]].

(* ===================================================================== *)
(** * Further parts of the package *)
(* ===================================================================== *)

(** ** src/index.tsx: the event listeners

    [NativeEventEmitter] is React Native's: [addListener(eventType,
    listener)] has [listener] called with the body of every event of that
    type.  A listener is given here by its event type and by the arguments
    the caller's [callback] is applied to for a body; reading a property of
    an absent body throws, which is [None]. *)

Fixpoint get (event : list (string * Any)) (key : string) : option Any :=
  match event with
  | [] => None
  | (k, v) :: rest => if String.eqb k key then Some v else get rest key
  end.

Record Listener : Type := mkListener {
  eventType : string;
  listener : option (list (string * Any)) -> option (list (option Any))
}.

Definition addConsentListener : Listener :=
  mkListener "didReceiveConsent"
    (fun event =>
       match event with
       | Some e => Some [get e "consent"; get e "jsonObject"]
       | None => None
       end).

Definition addShowConsentLayerListener : Listener :=
  mkListener "didShowConsentLayer"
    (fun event => Some [option_map Any_Dictionary event]).

Definition addCloseConsentLayerListener : Listener :=
  mkListener "didCloseConsentLayer"
    (fun event => Some [option_map Any_Dictionary event]).

Definition addErrorListener : Listener :=
  mkListener "didReceiveError"
    (fun event =>
       match event with
       | Some e => Some [get e "error"]
       | None => None
       end).

Definition addClickLinkListener : Listener :=
  mkListener "onClickLink"
    (fun event =>
       match event with
       | Some e => Some [get e "url"]
       | None => None
       end).

Definition addATTStatusChangeListener : Listener :=
  mkListener "didChangeATTStatus"
    (fun event => Some [option_map Any_Dictionary event]).


(** ** ios/CmSdkReactNativeV3.mm: [supportedEvents] *)

Definition supportedEvents : list string :=
  [ "didReceiveConsent"; "didShowConsentLayer"; "didCloseConsentLayer";
    "didReceiveError"; "onClickLink"; "didChangeATTStatus" ].

(** ** [setUrlConfig], in the glue and in Swift *)

Module UrlConfig.
Record t : Type := mk {
  id : string;
  domain : string;
  language : string;
  appName : string;
  noHash : option bool
}.
End UrlConfig.

Module UrlDictionary.
Record t : Type := mk {
  id : option string;
  domain : option string;
  language : option string;
  appName : option string;
  noHash : option bool
}.
End UrlDictionary.

(** The SDK's [UrlConfig] as the bridge builds it ([jsonConfig] is [nil]). *)
Record SdkUrlConfig : Type := mkSdkUrlConfig {
  url_id : string;
  url_domain : string;
  url_language : string;
  url_appName : string;
  url_noHash : bool
}.

(** The dictionary the glue builds: [noHash] is always set. *)
Definition urlConfigDict (config : UrlConfig.t) : UrlDictionary.t :=
  UrlDictionary.mk
    (Some (UrlConfig.id config)) (Some (UrlConfig.domain config))
    (Some (UrlConfig.language config)) (Some (UrlConfig.appName config))
    (Some (match UrlConfig.noHash config with
           | Some value => value
           | None => false
           end)).

Section IOS_UrlConfig.
Variable S : Type.
(** [CMPManager.setUrlConfig] *)
Variable CMPManager_setUrlConfig : SdkUrlConfig -> S -> S.

Definition Impl_setUrlConfig (config : UrlDictionary.t) (n : IOS S)
  : Promise unit * IOS S :=
  match UrlDictionary.id config, UrlDictionary.domain config,
        UrlDictionary.language config, UrlDictionary.appName config with
  | Some id, Some domain, Some language, Some appName =>
      let noHash := UrlDictionary.noHash config ?? false in
      let urlConfig := mkSdkUrlConfig id domain language appName noHash in
      (Resolved tt,
       mkIOS (impl n) (CMPManager_setUrlConfig urlConfig (shared n)) (screen n))
  | _, _, _, _ =>
      (Rejected "ERROR"
         ("Failed to set URL config: " ++ "Invalid config parameters"),
       n)
  end.

Definition TurboModule_setUrlConfig (config : UrlConfig.t) (n : IOS S)
  : Promise unit * IOS S :=
  Impl_setUrlConfig (urlConfigDict config) n.

End IOS_UrlConfig.

Arguments Impl_setUrlConfig {S} CMPManager_setUrlConfig config n.
Arguments TurboModule_setUrlConfig {S} CMPManager_setUrlConfig config n.

(** ** Vocabulary of the further statements *)

(** The lines [normalizeWebViewConfig] writes to the console on Android when
    it returns. *)
Definition android_warnings (raw : NativeWebViewConfig.t) : list string :=
  (if String.eqb (NativeWebViewConfig.position raw ?? "fullScreen") "custom"
   then ["[cm-sdk-react-native-v3] Android SDK ignores customRect; falling back to full screen."]
   else [])
  ++ match NativeWebViewConfig.backgroundStyle raw with
     | Some s =>
         (if String.eqb (WebViewBackgroundStyle.type s) "blur"
          then ["[cm-sdk-react-native-v3] Android SDK ignores blur; using dimmed."]
          else [])
         ++ ["[cm-sdk-react-native-v3] Android SDK ignores backgroundStyle; using dimmed."]
     | None => []
     end.

Definition is_number (c : option ColorValue) : bool :=
  match c with
  | Some (ColorNumber _) => true
  | _ => false
  end.

(** A background style as the native side can rely on it: one of the four
    tags, with a processed color for ["dimmed"] and ["color"], an opacity for
    ["dimmed"], one of the three blur styles for ["blur"], and no other
    property. *)
Definition normalized_style (s : WebViewBackgroundStyle.t) : bool :=
  let type := WebViewBackgroundStyle.type s in
  if String.eqb type "dimmed" then
    is_number (WebViewBackgroundStyle.color s)
    && negb (is_none (WebViewBackgroundStyle.opacity s))
    && is_none (WebViewBackgroundStyle.blurEffectStyle s)
  else if String.eqb type "color" then
    is_number (WebViewBackgroundStyle.color s)
    && is_none (WebViewBackgroundStyle.opacity s)
    && is_none (WebViewBackgroundStyle.blurEffectStyle s)
  else if String.eqb type "blur" then
    is_none (WebViewBackgroundStyle.color s)
    && is_none (WebViewBackgroundStyle.opacity s)
    && match WebViewBackgroundStyle.blurEffectStyle s with
       | Some b => existsb (String.eqb b) ["dark"; "light"; "extraLight"]
       | None => false
       end
  else if String.eqb type "none" then
    is_none (WebViewBackgroundStyle.color s)
    && is_none (WebViewBackgroundStyle.opacity s)
    && is_none (WebViewBackgroundStyle.blurEffectStyle s)
  else false.

(** A configuration as the native side can rely on it. *)
Definition normalized_config (c : NativeWebViewConfig.t) : bool :=
  match NativeWebViewConfig.position c with
  | Some p =>
      existsb (String.eqb p)
        ["fullScreen"; "halfScreenTop"; "halfScreenBottom"; "custom"]
      && (negb (String.eqb p "custom")
          || negb (is_none (NativeWebViewConfig.customRect c)))
  | None => false
  end
  && negb (is_none (NativeWebViewConfig.cornerRadius c))
  && negb (is_none (NativeWebViewConfig.respectsSafeArea c))
  && negb (is_none (NativeWebViewConfig.allowsOrientationChanges c))
  && match NativeWebViewConfig.backgroundStyle c with
     | Some s => normalized_style s
     | None => false
     end.

(** [sub] occurs in [s]. *)
Definition substring (sub s : string) : Prop :=
  exists before after : string, s = (before ++ sub ++ after)%string.

(** Two SDK background styles of the same case, equal but for the color. *)
Definition same_but_color {UIColor : Type} (a b : SdkBackgroundStyle UIColor)
  : Prop :=
  match a, b with
  | Background_dimmed _ o1, Background_dimmed _ o2 => o1 = o2
  | Background_color _, Background_color _ => True
  | Background_blur s1, Background_blur s2 => s1 = s2
  | Background_none, Background_none => True
  | _, _ => False
  end.

(** ** The configuration [setWebViewConfig] (Swift) hands to the SDK *)

Section UIConfig.
Variable UIColor : Type.
Variable UIColor_black : UIColor.
Variable RCTConvert_uiColor : ColorValue -> option UIColor.

Definition uiConfig_of (scr : Screen) (config : ConfigDictionary.t)
  : ConsentLayerUIConfig UIColor :=
  mkUIConfig
    (mapPosition scr config (ConfigDictionary.respectsSafeArea config ?? true))
    (mapBackgroundStyle UIColor UIColor_black RCTConvert_uiColor config)
    (ConfigDictionary.cornerRadius config ?? 5%float)
    (ConfigDictionary.respectsSafeArea config ?? true)
    (ConfigDictionary.allowsOrientationChanges config ?? true).

End UIConfig.

Arguments uiConfig_of {UIColor} UIColor_black RCTConvert_uiColor scr config.

(** ** The normalization of a configuration, by value

    [normalizeWebViewConfig] on a configuration read by value: the error it
    throws, or the configuration it returns, read by value.  That the code on
    the heap computes this is proved below. *)

Definition style_by_value (processColor : ColorValue -> option number)
  (style : option WebViewBackgroundStyle.t) : Error + WebViewBackgroundStyle.t :=
  match style with
  | None =>
      match processColor (ColorString "black") with
      | Some black =>
          inr (WebViewBackgroundStyle.mk "dimmed" (Some (ColorNumber black))
                 (Some 0.5%float) None)
      | None => inl (Error_InvalidColorValue (ColorString "black"))
      end
  | Some s =>
      let type := WebViewBackgroundStyle.type s in
      if String.eqb type "dimmed" then
        let c := WebViewBackgroundStyle.color s ?? ColorString "black" in
        match processColor c with
        | Some color =>
            inr (WebViewBackgroundStyle.mk type (Some (ColorNumber color))
                   (Some (WebViewBackgroundStyle.opacity s ?? 0.5%float)) None)
        | None => inl (Error_InvalidColorValue c)
        end
      else if String.eqb type "color" then
        match WebViewBackgroundStyle.color s with
        | Some c =>
            if truthy_color c then
              match processColor c with
              | Some color =>
                  inr (WebViewBackgroundStyle.mk type (Some (ColorNumber color))
                         None None)
              | None => inl (Error_InvalidColorValue c)
              end
            else inl Error_ColorRequired
        | None => inl Error_ColorRequired
        end
      else if String.eqb type "blur" then
        let blurStyle := WebViewBackgroundStyle.blurEffectStyle s ?? "dark" in
        if existsb (String.eqb blurStyle) ["dark"; "light"; "extraLight"]
        then inr (WebViewBackgroundStyle.mk type None None (Some blurStyle))
        else inl (Error_InvalidBlurEffectStyle blurStyle)
      else if String.eqb type "none" then
        inr (WebViewBackgroundStyle.mk type None None None)
      else inl (Error_InvalidBackgroundStyleType type)
  end.

Definition normalize_by_value (processColor : ColorValue -> option number)
  (raw : NativeWebViewConfig.t) : Error + NativeWebViewConfig.t :=
  let position := NativeWebViewConfig.position raw ?? "fullScreen" in
  if negb (existsb (String.eqb position)
             ["fullScreen"; "halfScreenTop"; "halfScreenBottom"; "custom"])
  then inl (Error_InvalidPosition position)
  else if String.eqb position "custom"
          && is_none (NativeWebViewConfig.customRect raw)
  then inl Error_CustomRectRequired
  else
    match style_by_value processColor (NativeWebViewConfig.backgroundStyle raw) with
    | inl e => inl e
    | inr style =>
        inr (NativeWebViewConfig.mk
               (Some position)
               (NativeWebViewConfig.customRect raw)
               (Some (NativeWebViewConfig.cornerRadius raw ?? 5%float))
               (Some (NativeWebViewConfig.respectsSafeArea raw ?? true))
               (Some (NativeWebViewConfig.allowsOrientationChanges raw ?? true))
               (Some style))
    end.

(** Two configurations equal but for the color of the background style. *)
Definition same_but_style_color (a b : NativeWebViewConfig.t) : Prop :=
  NativeWebViewConfig.position a = NativeWebViewConfig.position b
  /\ NativeWebViewConfig.customRect a = NativeWebViewConfig.customRect b
  /\ NativeWebViewConfig.cornerRadius a = NativeWebViewConfig.cornerRadius b
  /\ NativeWebViewConfig.respectsSafeArea a
     = NativeWebViewConfig.respectsSafeArea b
  /\ NativeWebViewConfig.allowsOrientationChanges a
     = NativeWebViewConfig.allowsOrientationChanges b
  /\ match NativeWebViewConfig.backgroundStyle a,
           NativeWebViewConfig.backgroundStyle b with
     | Some s, Some t =>
         WebViewBackgroundStyle.type s = WebViewBackgroundStyle.type t
         /\ WebViewBackgroundStyle.opacity s = WebViewBackgroundStyle.opacity t
         /\ WebViewBackgroundStyle.blurEffectStyle s
            = WebViewBackgroundStyle.blurEffectStyle t
     | None, None => True
     | _, _ => False
     end.

(** Example heaps for the further statements:
    [{position: 'custom', customRect: {x: 10, y: 20, width: 300, height:
    400}, backgroundStyle: BackgroundStyle.blur()}] after its rectangle and
    its style, and [{position: 'bottom', backgroundStyle: {type:
    'gradient'}}] after its style. *)
Definition custom_blur_heap : list object :=
  [ Object_WebViewRect (WebViewRect.mk 10%float 20%float 300%float 400%float);
    Object_WebViewBackgroundStyle (BackgroundStyle.blur None);
    Object_WebViewConfig
      (WebViewConfig.mk (Some "custom") (Some 0) None None None (Some 1)) ].

Definition custom_blur_raw : NativeWebViewConfig.t :=
  NativeWebViewConfig.mk (Some "custom")
    (Some (WebViewRect.mk 10%float 20%float 300%float 400%float)) None None None
    (Some (BackgroundStyle.blur None)).

Definition custom_blur_normalized : NativeWebViewConfig.t :=
  NativeWebViewConfig.mk (Some "custom")
    (Some (WebViewRect.mk 10%float 20%float 300%float 400%float))
    (Some 5%float) (Some true) (Some true) (Some (BackgroundStyle.blur None)).

Definition all_wrong_heap : list object :=
  [ Object_WebViewBackgroundStyle
      (WebViewBackgroundStyle.mk "gradient" None None None);
    Object_WebViewConfig
      (WebViewConfig.mk (Some "bottom") None None None None (Some 0)) ].

Definition all_wrong_raw : NativeWebViewConfig.t :=
  NativeWebViewConfig.mk (Some "bottom") None None None None
    (Some (WebViewBackgroundStyle.mk "gradient" None None None)).

(** [{position: 'halfScreenTop', backgroundStyle: BackgroundStyle.dimmed()}]
    after its style, and [{position: 'halfScreenTop'}]. *)
Definition dimmed_default_heap : list object :=
  [ Object_WebViewBackgroundStyle (BackgroundStyle.dimmed None None);
    Object_WebViewConfig
      (WebViewConfig.mk (Some "halfScreenTop") None None None None (Some 0));
    Object_WebViewConfig
      (WebViewConfig.mk (Some "halfScreenTop") None None None None None) ].

(** An SDK that records the configurations and statuses it is given. *)
Definition recording_cmpManager
  : CMPManager unit (list (ConsentLayerUIConfig unit)) := {|
  CMPManager_setWebViewConfig := fun uiConfig s => uiConfig :: s;
  CMPManager_setATTStatus := fun _ s => s;
  CMPManager_exportCMPInfo := fun s => ("", s);
  CMPManager_importCMPInfo := fun _ s => (None, s)
|}.

(* ===================================================================== *)
(** * The Background Style Factory and the ATT status *)
(* ===================================================================== *)

(** C3.  Each of the four factory functions returns an object whose [type]
    is the variant asked for, with the payload it was given and nothing else:
    [dimmed()] leaves [color] and [opacity] undefined, [blur()] defaults to
    ["dark"], [none()] has no payload.  The functions are total: no argument
    is checked or refused. *)
Theorem BackgroundStyle_factory_variants :
  (forall (color : option ColorValue) (opacity : option number),
      BackgroundStyle.dimmed color opacity
      = WebViewBackgroundStyle.mk "dimmed" color opacity None)
  /\ BackgroundStyle.dimmed None None
     = WebViewBackgroundStyle.mk "dimmed" None None None
  /\ (forall color : option ColorValue,
         BackgroundStyle.color color
         = WebViewBackgroundStyle.mk "color" color None None)
  /\ (forall style : string,
         BackgroundStyle.blur (Some style)
         = WebViewBackgroundStyle.mk "blur" None None (Some style))
  /\ BackgroundStyle.blur None
     = WebViewBackgroundStyle.mk "blur" None None (Some "dark")
  /\ BackgroundStyle.none = WebViewBackgroundStyle.mk "none" None None None.
Proof. repeat split. Qed.

Lemma SameValueZero_not_nan (a n : number) :
  PrimFloat.is_nan a = false -> SameValueZero a n = PrimFloat.eqb a n.
Proof.
  intros Ha. unfold SameValueZero. rewrite Ha. apply orb_false_r.
Qed.

Lemma allowed_has (n : number) :
  existsb (fun a => SameValueZero a n)
    [ ATTStatus.NotDetermined; ATTStatus.Restricted;
      ATTStatus.Denied; ATTStatus.Authorized ]
  = (PrimFloat.eqb 0 n || PrimFloat.eqb 1 n
     || PrimFloat.eqb 2 n || PrimFloat.eqb 3 n)%float.
Proof.
  unfold existsb.
  rewrite !SameValueZero_not_nan by reflexivity.
  unfold ATTStatus.NotDetermined, ATTStatus.Restricted,
    ATTStatus.Denied, ATTStatus.Authorized.
  rewrite orb_false_r, !orb_assoc. reflexivity.
Qed.

(** C4.  The members of [ATTStatus] are 0, 1, 2 and 3.  On a number equal to
    none of them [setATTStatus] throws and leaves the realm as it was: the
    native [setATTStatus] is not invoked.  On a number equal to one of them
    it invokes the native [setATTStatus] with that number and returns its
    promise. *)
Theorem setATTStatus_accepts_the_enumeration {N : Type} (module : Spec N) :
  (ATTStatus.NotDetermined = 0 /\ ATTStatus.Restricted = 1
   /\ ATTStatus.Denied = 2 /\ ATTStatus.Authorized = 3)%float
  /\ (forall (n : number) (r : Realm N),
         (PrimFloat.eqb 0 n || PrimFloat.eqb 1 n
          || PrimFloat.eqb 2 n || PrimFloat.eqb 3 n)%float = false ->
         setATTStatus module n r = (Throw (Error_InvalidATTStatus n), r))
  /\ (forall (n : number) (r : Realm N),
         (PrimFloat.eqb 0 n || PrimFloat.eqb 1 n
          || PrimFloat.eqb 2 n || PrimFloat.eqb 3 n)%float = true ->
         setATTStatus module n r
         = (Normal (fst (Spec_setATTStatus module n (native r))),
            mkRealm (heap r) (console r) (bridge r ++ [Call_setATTStatus n])
              (snd (Spec_setATTStatus module n (native r))))).
Proof.
  split; [repeat split|split]; intros n r H; unfold setATTStatus;
    rewrite allowed_has, H; simpl.
  - reflexivity.
  - unfold invoke. destruct (Spec_setATTStatus module n (native r)).
    reflexivity.
Qed.

Lemma setATTStatus_accepts_the_enumeration_witness :
  setATTStatus mockNativeModule 7%float (mkRealm [] [] [] tt)
  = (Throw (Error_InvalidATTStatus 7%float), mkRealm [] [] [] tt)
  /\ setATTStatus mockNativeModule 2%float (mkRealm [] [] [] tt)
     = (Normal (Resolved tt), mkRealm [] [] [Call_setATTStatus 2%float] tt).
Proof.
  destruct (setATTStatus_accepts_the_enumeration mockNativeModule)
    as (_ & Hthrows & Hforwards).
  split.
  - apply Hthrows. reflexivity.
  - apply (Hforwards 2%float (mkRealm [] [] [] tt)). reflexivity.
Defined.

(* ===================================================================== *)
(** * The WebView Config Normalizer *)
(* ===================================================================== *)

Section Normalizer.
Context {N : Type}.
Variable CmSdkReactNativeV3 : Spec N.
Variable Platform_OS : string.
Variable processColor : ColorValue -> option number.

Lemma extends_refl (r : Realm N) : extends r r [].
Proof. unfold extends. rewrite app_nil_r. auto. Qed.

Lemma extends_trans (r r1 r2 : Realm N) (fresh : list object) :
  extends r r1 [] -> extends r1 r2 fresh -> extends r r2 fresh.
Proof.
  unfold extends. rewrite app_nil_r.
  intros (-> & -> & ->) (-> & -> & ->). auto.
Qed.


Lemma lookup_fresh_0 (h : list object) (a b : object) :
  nth_error (h ++ [a; b]) (length h) = Some a.
Proof. rewrite nth_error_app2, Nat.sub_diag by lia. reflexivity. Qed.

Lemma lookup_fresh_1 (h : list object) (a b : object) :
  nth_error (h ++ [a; b]) (Datatypes.S (length h)) = Some b.
Proof.
  rewrite nth_error_app2 by lia.
  replace (Datatypes.S (length h) - length h) with 1 by lia. reflexivity.
Qed.

Lemma console_warn_extends (message : string) (r : Realm N) :
  extends r (snd (console_warn message r)) [].
Proof. unfold extends. simpl. rewrite app_nil_r. auto. Qed.

Lemma requireCustomRect_extends (cfg : WebViewConfig.t) (position : string)
  (r : Realm N) :
  extends r (snd (requireCustomRect Platform_OS cfg position r)) [].
Proof.
  unfold requireCustomRect.
  destruct (String.eqb position WebViewPosition.Custom); [|apply extends_refl].
  destruct (WebViewConfig.customRect cfg); [|apply extends_refl].
  destruct (String.eqb Platform_OS "android");
    [apply console_warn_extends|apply extends_refl].
Qed.

Lemma requireCustomRect_throws (cfg : WebViewConfig.t) (position : string)
  (r : Realm N) :
  throws (fst (requireCustomRect Platform_OS cfg position r))
  = String.eqb position "custom" && is_none (WebViewConfig.customRect cfg).
Proof.
  unfold requireCustomRect. change WebViewPosition.Custom with "custom".
  destruct (String.eqb position "custom"); [|reflexivity].
  destruct (WebViewConfig.customRect cfg); [|reflexivity].
  destruct (String.eqb Platform_OS "android"); reflexivity.
Qed.

(** The arrow function that computes [backgroundStyle] returns a new style
    object, the dimmed default when the configuration has none, or throws
    before it creates anything. *)
Lemma normalizeBackgroundStyle_spec (cfg : WebViewConfig.t) (r : Realm N) :
  match normalizeBackgroundStyle Platform_OS processColor cfg r with
  | (Normal l, r') =>
      exists style : WebViewBackgroundStyle.t,
        l = length (heap r)
        /\ extends r r' [Object_WebViewBackgroundStyle style]
        /\ (WebViewConfig.backgroundStyle cfg = None ->
            exists black : number,
              processColor (ColorString "black") = Some black
              /\ style = WebViewBackgroundStyle.mk "dimmed"
                           (Some (ColorNumber black)) (Some 0.5%float) None)
  | (Throw _, r') => extends r r' []
  end.
Proof.
  unfold normalizeBackgroundStyle, bind, get_WebViewBackgroundStyle,
    normalizeColor.
  destruct (WebViewConfig.backgroundStyle cfg) as [l|].
  - destruct (nth_error (heap r) l) as [[rect|s|c]|]; try apply extends_refl.
    destruct s as [type color opacity blur]. simpl.
    destruct (String.eqb type BackgroundStyleType.Dimmed).
    { destruct (processColor (color ?? ColorString "black")); simpl;
        [new_style|apply extends_refl]. }
    destruct (String.eqb type BackgroundStyleType.Color).
    { destruct color as [c|]; [|apply extends_refl].
      destruct (truthy_color c); [|apply extends_refl].
      destruct (processColor c); simpl; [new_style|apply extends_refl]. }
    destruct (String.eqb type BackgroundStyleType.Blur).
    { destruct (negb _ && negb _ && negb _); [apply extends_refl|].
      destruct (String.eqb Platform_OS "android"); simpl; new_style. }
    destruct (String.eqb type BackgroundStyleType.None);
      [new_style|apply extends_refl].
  - destruct (processColor (ColorString "black")) as [black|]; simpl;
      [|apply extends_refl].
    eexists. split; [reflexivity|]. split; [unfold extends; simpl; auto|].
    intros _. exists black. split; reflexivity.
Qed.

Lemma normalizeBackgroundStyle_throws (cfg : WebViewConfig.t) (r : Realm N)
  (style : option WebViewBackgroundStyle.t) :
  read_backgroundStyle (heap r) (WebViewConfig.backgroundStyle cfg) = Some style ->
  throws (fst (normalizeBackgroundStyle Platform_OS processColor cfg r))
  = rejects_backgroundStyle processColor style.
Proof.
  unfold read_backgroundStyle, rejects_backgroundStyle,
    normalizeBackgroundStyle, bind, get_WebViewBackgroundStyle, normalizeColor.
  destruct (WebViewConfig.backgroundStyle cfg) as [l|].
  - destruct (nth_error (heap r) l) as [[rect|s|c]|]; try discriminate.
    intros [= <-]. destruct s as [type color opacity blur]. simpl.
    unfold BackgroundStyleType.Dimmed, BackgroundStyleType.Color,
      BackgroundStyleType.Blur, BackgroundStyleType.None.
    destruct (String.eqb_spec type "dimmed") as [->|Hdimmed].
    { simpl. destruct (processColor (color ?? ColorString "black")); reflexivity. }
    destruct (String.eqb_spec type "color") as [->|Hcolor].
    { simpl. destruct color as [c|]; [|reflexivity].
      destruct (truthy_color c); [|reflexivity].
      simpl. destruct (processColor c); reflexivity. }
    destruct (String.eqb_spec type "blur") as [->|Hblur].
    { simpl.
      unfold BlurEffectStyle.Dark, BlurEffectStyle.Light,
        BlurEffectStyle.ExtraLight.
      destruct (String.eqb (blur ?? "dark") "dark");
        destruct (String.eqb (blur ?? "dark") "light");
        destruct (String.eqb (blur ?? "dark") "extraLight");
        destruct (String.eqb Platform_OS "android"); reflexivity. }
    destruct (String.eqb_spec type "none") as [->|Hnone]; reflexivity.
  - intros [= <-]. simpl.
    destruct (processColor (ColorString "black")); reflexivity.
Qed.

(** What a call of [normalizeWebViewConfig] does to the realm.  When it
    returns, the result is a new reference, to a new configuration that
    refers to a new style object; the configuration has the position, corner
    radius and flags of the input with the defaults filled, and the input's
    [customRect] reference.  When it throws, nothing was created. *)
Lemma normalizeWebViewConfig_spec (config : loc) (r : Realm N) :
  match normalizeWebViewConfig Platform_OS processColor config r with
  | (Normal normalized, r') =>
      exists (cfg : WebViewConfig.t) (style : WebViewBackgroundStyle.t),
        nth_error (heap r) config = Some (Object_WebViewConfig cfg)
        /\ normalized = Datatypes.S (length (heap r))
        /\ extends r r'
             [ Object_WebViewBackgroundStyle style;
               Object_WebViewConfig
                 (WebViewConfig.mk
                    (Some (WebViewConfig.position cfg ?? "fullScreen"))
                    (WebViewConfig.customRect cfg)
                    (Some (WebViewConfig.cornerRadius cfg ?? 5%float))
                    (Some (WebViewConfig.respectsSafeArea cfg ?? true))
                    (Some (WebViewConfig.allowsOrientationChanges cfg ?? true))
                    (Some (length (heap r)))) ]
        /\ (WebViewConfig.backgroundStyle cfg = None ->
            exists black : number,
              processColor (ColorString "black") = Some black
              /\ style = WebViewBackgroundStyle.mk "dimmed"
                           (Some (ColorNumber black)) (Some 0.5%float) None)
  | (Throw _, r') => extends r r' []
  end.
Proof.
  unfold normalizeWebViewConfig.
  unfold bind at 1. unfold get_WebViewConfig.
  destruct (nth_error (heap r) config) as [[rect|style|cfg]|] eqn:Hcfg;
    try apply extends_refl.
  destruct (negb _); [apply extends_refl|].
  unfold bind at 1.
  pose proof (requireCustomRect_extends cfg
                (WebViewConfig.position cfg ?? WebViewPosition.FullScreen) r)
    as H1.
  destruct (requireCustomRect _ _ _ r) as [[[]|e] r1]; simpl in H1;
    [|exact H1].
  unfold bind at 1.
  pose proof (normalizeBackgroundStyle_spec cfg r1) as H2.
  destruct (normalizeBackgroundStyle _ _ cfg r1) as [[l|e] r2];
    [|exact (extends_trans _ _ _ _ H1 H2)].
  destruct H2 as (style & -> & H2 & Hblack).
  assert (Hlen : length (heap r1) = length (heap r)).
  { destruct H1 as (-> & _). now rewrite app_nil_r. }
  pose proof (extends_trans _ _ _ _ H1 H2) as H12.
  unfold bind at 1.
  assert (H3 : forall c : JS N unit,
             (c = ret tt \/ exists m, c = console_warn m) ->
             exists r3, c r2 = (Normal tt, r3) /\ extends r2 r3 []).
  { intros c [->|[m ->]]; eexists; (split; [reflexivity|]);
      [apply extends_refl|apply console_warn_extends]. }
  match goal with
  | |- context [(if ?b then ?c1 else ?c2) r2] =>
      destruct (H3 (if b then c1 else c2)) as (r3 & -> & H23);
        [destruct b; [right; eexists; reflexivity|left; reflexivity]|]
  end.
  exists cfg, style. split; [reflexivity|].
  unfold new. simpl.
  destruct H12 as (E1 & E2 & E3). destruct H23 as (F1 & F2 & F3).
  rewrite app_nil_r in F1.
  split; [|split; [|exact Hblack]].
  - rewrite F1, E1, length_app. simpl. lia.
  - unfold extends. simpl.
    rewrite F1, F2, F3, E1, E2, E3, Hlen, <- app_assoc. auto.
Qed.

(** [normalizeWebViewConfig] throws exactly on the configurations that
    [rejects] describes. *)
Theorem normalizeWebViewConfig_throws_iff_rejects (config : loc) (r : Realm N)
  (cfg : WebViewConfig.t) (style : option WebViewBackgroundStyle.t) :
  nth_error (heap r) config = Some (Object_WebViewConfig cfg) ->
  read_backgroundStyle (heap r) (WebViewConfig.backgroundStyle cfg) = Some style ->
  throws (fst (normalizeWebViewConfig Platform_OS processColor config r))
  = rejects processColor cfg style.
Proof.
  intros Hcfg Hstyle.
  unfold normalizeWebViewConfig, rejects.
  unfold bind at 1. unfold get_WebViewConfig. rewrite Hcfg.
  change allowedPositions
    with ["fullScreen"; "halfScreenTop"; "halfScreenBottom"; "custom"].
  change WebViewPosition.FullScreen with "fullScreen".
  destruct (existsb _ _); [|reflexivity].
  cbn [negb orb].
  unfold bind at 1.
  pose proof (requireCustomRect_extends cfg
                (WebViewConfig.position cfg ?? "fullScreen") r) as H1.
  rewrite <- (requireCustomRect_throws cfg
                (WebViewConfig.position cfg ?? "fullScreen") r).
  destruct (requireCustomRect _ _ _ r) as [[[]|e] r1]; simpl in H1;
    [|reflexivity].
  cbn [throws fst orb].
  assert (Hstyle1 : read_backgroundStyle (heap r1)
                      (WebViewConfig.backgroundStyle cfg) = Some style).
  { destruct H1 as (-> & _). now rewrite app_nil_r. }
  rewrite <- (normalizeBackgroundStyle_throws cfg r1 style Hstyle1).
  unfold bind at 1.
  destruct (normalizeBackgroundStyle _ _ cfg r1) as [[l|e] r2]; [|reflexivity].
  unfold bind, new.
  destruct (String.eqb Platform_OS "android" && _); reflexivity.
Qed.

(** A configuration without [backgroundStyle], with one of the four
    positions or none, and with a [customRect] when the position is
    ["custom"], is not refused. *)
Lemma default_background_not_rejected (cfg : WebViewConfig.t) (black : number) :
  WebViewConfig.backgroundStyle cfg = None ->
  In (WebViewConfig.position cfg ?? "fullScreen") allowedPositions ->
  (WebViewConfig.position cfg = Some "custom" ->
   WebViewConfig.customRect cfg <> None) ->
  processColor (ColorString "black") = Some black ->
  rejects processColor cfg None = false.
Proof.
  intros _ Hpos Hrect Hblack. unfold rejects.
  cbn [rejects_backgroundStyle]. rewrite Hblack.
  assert (Hallowed : existsb
                       (String.eqb (WebViewConfig.position cfg ?? "fullScreen"))
                       ["fullScreen"; "halfScreenTop";
                        "halfScreenBottom"; "custom"] = true).
  { apply existsb_exists. exists (WebViewConfig.position cfg ?? "fullScreen").
    split; [exact Hpos|apply String.eqb_refl]. }
  rewrite Hallowed. cbn [negb orb is_none]. rewrite orb_false_r.
  destruct (String.eqb_spec (WebViewConfig.position cfg ?? "fullScreen")
              "custom") as [Hcustom|_]; [|reflexivity].
  destruct (WebViewConfig.position cfg) as [p|]; [|discriminate Hcustom].
  simpl in Hcustom. subst p.
  destruct (WebViewConfig.customRect cfg); [reflexivity|].
  now elim (Hrect eq_refl).
Qed.

(** The result on [{position: 'halfScreenBottom'}]. *)
Lemma normalizeWebViewConfig_halfScreenBottom (config : loc) (r : Realm N)
  (black : number) :
  nth_error (heap r) config
  = Some (Object_WebViewConfig
            (WebViewConfig.mk (Some "halfScreenBottom") None None None None None)) ->
  processColor (ColorString "black") = Some black ->
  normalizeWebViewConfig Platform_OS processColor config r
  = (Normal (Datatypes.S (length (heap r))),
     mkRealm
       (heap r
        ++ [ Object_WebViewBackgroundStyle
               (WebViewBackgroundStyle.mk "dimmed" (Some (ColorNumber black))
                  (Some 0.5%float) None);
             Object_WebViewConfig
               (WebViewConfig.mk (Some "halfScreenBottom") None (Some 5%float)
                  (Some true) (Some true) (Some (length (heap r)))) ])
       (console r) (bridge r) (native r)).
Proof.
  intros Hcfg Hblack.
  unfold normalizeWebViewConfig, bind, get_WebViewConfig.
  rewrite Hcfg. simpl.
  unfold normalizeBackgroundStyle, bind, normalizeColor. simpl.
  rewrite Hblack. simpl. rewrite andb_false_r. simpl.
  unfold new. simpl.
  rewrite length_app, <- app_assoc. simpl.
  replace (length (heap r) + 1) with (Datatypes.S (length (heap r))) by lia.
  reflexivity.
Qed.

(** C1.  Whenever [normalizeWebViewConfig] returns, the configuration it
    returns has the input's position, or ["fullScreen"] when unset, the
    input's corner radius, or 5, and the input's [respectsSafeArea] and
    [allowsOrientationChanges], or [true]; when the input has no
    [backgroundStyle], the returned one is dimmed, with the color
    [processColor] gives for ["black"] and opacity 0.5.  It does return on
    every configuration without [backgroundStyle] whose position is unset or
    one of the four, with a [customRect] when it is ["custom"].  And on
    [{position: 'halfScreenBottom'}] the configuration returned, when
    read by value, is exactly [{position: 'halfScreenBottom', cornerRadius: 5,
    respectsSafeArea: true, allowsOrientationChanges: true, backgroundStyle:
    {type: 'dimmed', color: black, opacity: 0.5}}].  The last two suppose
    that [processColor] resolves ["black"]. *)
Theorem normalizeWebViewConfig_fills_defaults :
  (forall (config normalized : loc) (r r' : Realm N),
      normalizeWebViewConfig Platform_OS processColor config r
      = (Normal normalized, r') ->
      exists cfg out : WebViewConfig.t,
        nth_error (heap r) config = Some (Object_WebViewConfig cfg)
        /\ nth_error (heap r') normalized = Some (Object_WebViewConfig out)
        /\ WebViewConfig.position out
           = Some (WebViewConfig.position cfg ?? "fullScreen")
        /\ WebViewConfig.cornerRadius out
           = Some (WebViewConfig.cornerRadius cfg ?? 5%float)
        /\ WebViewConfig.respectsSafeArea out
           = Some (WebViewConfig.respectsSafeArea cfg ?? true)
        /\ WebViewConfig.allowsOrientationChanges out
           = Some (WebViewConfig.allowsOrientationChanges cfg ?? true)
        /\ (WebViewConfig.backgroundStyle cfg = None ->
            exists (black : number) (style : loc),
              processColor (ColorString "black") = Some black
              /\ WebViewConfig.backgroundStyle out = Some style
              /\ nth_error (heap r') style
                 = Some (Object_WebViewBackgroundStyle
                           (WebViewBackgroundStyle.mk "dimmed"
                              (Some (ColorNumber black)) (Some 0.5%float) None))))
  /\ (forall (config : loc) (r : Realm N) (cfg : WebViewConfig.t)
             (black : number),
         nth_error (heap r) config = Some (Object_WebViewConfig cfg) ->
         WebViewConfig.backgroundStyle cfg = None ->
         In (WebViewConfig.position cfg ?? "fullScreen") allowedPositions ->
         (WebViewConfig.position cfg = Some "custom" ->
          WebViewConfig.customRect cfg <> None) ->
         processColor (ColorString "black") = Some black ->
         exists (normalized : loc) (r' : Realm N),
           normalizeWebViewConfig Platform_OS processColor config r
           = (Normal normalized, r'))
  /\ (forall (config : loc) (r : Realm N) (black : number),
         nth_error (heap r) config
         = Some (Object_WebViewConfig
                   (WebViewConfig.mk (Some "halfScreenBottom")
                      None None None None None)) ->
         processColor (ColorString "black") = Some black ->
         exists (normalized : loc) (r' : Realm N),
           normalizeWebViewConfig Platform_OS processColor config r
           = (Normal normalized, r')
           /\ read_WebViewConfig (heap r') normalized
              = Some (NativeWebViewConfig.mk (Some "halfScreenBottom") None
                        (Some 5%float) (Some true) (Some true)
                        (Some (WebViewBackgroundStyle.mk "dimmed"
                                 (Some (ColorNumber black)) (Some 0.5%float)
                                 None)))).
Proof.
  split; [|split].
  - intros config normalized r r' H.
    pose proof (normalizeWebViewConfig_spec config r) as Hspec.
    rewrite H in Hspec.
    destruct Hspec as (cfg & style & Hcfg & -> & (Hheap & _) & Hblack).
    eexists cfg, _. split; [exact Hcfg|].
    rewrite Hheap, lookup_fresh_1. split; [reflexivity|].
    simpl. repeat (split; [reflexivity|]).
    intros Hnone. destruct (Hblack Hnone) as (black & Hpc & ->).
    exists black, (length (heap r)). rewrite lookup_fresh_0. auto.
  - intros config r cfg black Hcfg Hnone Hpos Hrect Hblack.
    assert (Hstyle : read_backgroundStyle (heap r)
                       (WebViewConfig.backgroundStyle cfg) = Some None).
    { rewrite Hnone. reflexivity. }
    pose proof (normalizeWebViewConfig_throws_iff_rejects config r cfg None
                  Hcfg Hstyle) as Hthrows.
    rewrite (default_background_not_rejected cfg black Hnone Hpos Hrect Hblack)
      in Hthrows.
    destruct (normalizeWebViewConfig Platform_OS processColor config r)
      as [[normalized|e] r']; [eauto|discriminate Hthrows].
  - intros config r black Hcfg Hblack.
    eexists _, _. split.
    + apply normalizeWebViewConfig_halfScreenBottom; eassumption.
    + unfold read_WebViewConfig. simpl heap.
      rewrite lookup_fresh_1. simpl. rewrite lookup_fresh_0. reflexivity.
Qed.

(** The two lists of refused configurations differ on a falsy color of a
    ["color"] style only. *)
Lemma rejects_as_specified (cfg : WebViewConfig.t)
  (style : option WebViewBackgroundStyle.t) :
  (forall (s : WebViewBackgroundStyle.t) (c : ColorValue),
      style = Some s ->
      WebViewBackgroundStyle.type s = "color" ->
      WebViewBackgroundStyle.color s = Some c ->
      truthy_color c = true) ->
  rejects processColor cfg style = specified_rejects processColor cfg style.
Proof.
  intros Htruthy. unfold rejects, specified_rejects. f_equal.
  destruct style as [s|]; [|reflexivity].
  unfold rejects_backgroundStyle, specified_rejects_backgroundStyle.
  cbv zeta.
  destruct (String.eqb_spec (WebViewBackgroundStyle.type s) "color")
    as [Hcolor|_]; [|reflexivity].
  destruct (WebViewBackgroundStyle.color s) as [c|] eqn:Hc; [|reflexivity].
  rewrite (Htruthy s c eq_refl Hcolor Hc). reflexivity.
Qed.

(** An error of [normalizeWebViewConfig] leaves [setWebViewConfig] before the
    native method is invoked: the heap, the bridge trace and the native
    module are as they were. *)
Theorem setWebViewConfig_throws_before_the_bridge (config : loc)
  (r r' : Realm N) (e : Error) :
  normalizeWebViewConfig Platform_OS processColor config r = (Throw e, r') ->
  setWebViewConfig CmSdkReactNativeV3 Platform_OS processColor config r
  = (Throw e, r')
  /\ heap r' = heap r /\ bridge r' = bridge r /\ native r' = native r.
Proof.
  intros H. unfold setWebViewConfig, bind. rewrite H. split; [reflexivity|].
  pose proof (normalizeWebViewConfig_spec config r) as Hspec.
  rewrite H in Hspec. destruct Hspec as (-> & -> & ->).
  rewrite app_nil_r. auto.
Qed.


End Normalizer.

Lemma normalizeWebViewConfig_fills_defaults_witness :
  exists (normalized : loc) (r' : Realm unit),
    normalizeWebViewConfig "ios" mock_processColor 0
      (mkRealm halfScreenBottom_heap [] [] tt)
    = (Normal normalized, r')
    /\ read_WebViewConfig (heap r') normalized
       = Some (NativeWebViewConfig.mk (Some "halfScreenBottom") None
                 (Some 5%float) (Some true) (Some true)
                 (Some (WebViewBackgroundStyle.mk "dimmed"
                          (Some (ColorNumber 4278190080%float))
                          (Some 0.5%float) None))).
Proof.
  destruct (normalizeWebViewConfig_fills_defaults (N := unit) "ios"
              mock_processColor) as (_ & _ & H).
  apply (H 0 (mkRealm halfScreenBottom_heap [] [] tt) 4278190080%float);
    reflexivity.
Defined.

(** C2, on [setWebViewConfig({backgroundStyle: {type: 'color', color: 0}})]
    under the Jest mock: the call throws "color is required" and nothing
    crosses the bridge, although the style has a color, [processColor]
    resolves it, and none of the specified causes of an error holds. *)
Theorem setWebViewConfig_refuses_the_color_zero :
  setWebViewConfig mockNativeModule "ios" mock_processColor 1
    (mkRealm color_zero_heap [] [] tt)
  = (Throw Error_ColorRequired, mkRealm color_zero_heap [] [] tt)
  /\ WebViewBackgroundStyle.color
       (BackgroundStyle.color (Some (ColorNumber 0%float)))
     = Some (ColorNumber 0%float)
  /\ mock_processColor (ColorNumber 0%float) = Some 0%float
  /\ specified_rejects mock_processColor color_zero_config
       (Some (BackgroundStyle.color (Some (ColorNumber 0%float)))) = false.
Proof. repeat split. Qed.


(* ===================================================================== *)
(** * The delegate: layer events and the link-click gate *)
(* ===================================================================== *)

Lemma deliver_all_cons (self : Impl) (c : Callback) (cs : list Callback) :
  deliver_all self (c :: cs)
  = (fst (deliver_all (fst (deliver self c)) cs),
     snd (deliver self c) ++ snd (deliver_all (fst (deliver self c)) cs)).
Proof.
  simpl. destruct (deliver self c) as [self1 sent1]. simpl.
  destruct (deliver_all self1 cs). reflexivity.
Qed.

(** Once the emitter is gone, it stays gone and nothing is sent. *)
Lemma released_emitter_stays_released (self : Impl) (c : Callback) :
  eventEmitter self = false ->
  eventEmitter (fst (deliver self c)) = false /\ snd (deliver self c) = [].
Proof.
  intros H. destruct self as [emitter listeners shown gate].
  simpl in H. subst emitter.
  destruct c; simpl; auto.
  - destruct shown; simpl; auto.
  - destruct gate; simpl; auto.
Qed.

(** While the emitter is alive, [isConsentLayerShown] tells whether the last
    layer event sent was a show. *)
Lemma closes_follow_shows_from (cs : list Callback) :
  forall (self : Impl) (shown : bool),
    (eventEmitter self = true -> shown = isConsentLayerShown self) ->
    closes_follow_shows shown (snd (deliver_all self cs)) = true.
Proof.
  induction cs as [|c cs IH]; intros self shown Hinv; [reflexivity|].
  rewrite deliver_all_cons. simpl snd.
  destruct (eventEmitter self) eqn:Hemitter.
  - specialize (Hinv eq_refl). subst shown.
    destruct self as [emitter listeners shown gate].
    simpl in Hemitter. subst emitter.
    destruct c as [consent jsonObject| | |error|oldStatus newStatus lastUpdated
                  |urlString|]; simpl.
    + apply IH. auto.
    + apply IH. auto.
    + destruct shown; simpl; apply IH; auto.
    + apply IH. auto.
    + apply IH. auto.
    + destruct gate; simpl; apply IH; auto.
    + apply IH. simpl. discriminate.
  - destruct (released_emitter_stays_released self c Hemitter) as [H1 H2].
    rewrite H2. simpl. apply IH. rewrite H1. discriminate.
Qed.

(** C5.  Whatever the sequence of callbacks on a new delegate, in the events
    sent every [didCloseConsentLayer] follows a [didShowConsentLayer] sent
    since the previous [didCloseConsentLayer].  A [didCloseConsentLayer]
    callback while the layer is not marked shown sends nothing and changes
    nothing; followed by a show and a close, the two are sent. *)
Theorem close_is_forwarded_only_after_show :
  (forall cs : list Callback,
      closes_follow_shows false (snd (deliver_all Impl_init cs)) = true)
  /\ (forall self : Impl,
         isConsentLayerShown self = false ->
         didCloseConsentLayer self = (self, []))
  /\ (forall self : Impl,
         eventEmitter self = true ->
         isConsentLayerShown self = false ->
         snd (deliver_all self
                [ Callback_didCloseConsentLayer;
                  Callback_didShowConsentLayer;
                  Callback_didCloseConsentLayer ])
         = [event_didShowConsentLayer; event_didCloseConsentLayer]).
Proof.
  split; [|split].
  - intros cs. apply closes_follow_shows_from. reflexivity.
  - intros self H. unfold didCloseConsentLayer. rewrite H. reflexivity.
  - intros [emitter listeners shown gate] Hemitter Hshown.
    simpl in *. subst. reflexivity.
Qed.

Lemma close_is_forwarded_only_after_show_witness :
  didCloseConsentLayer Impl_init = (Impl_init, [])
  /\ snd (deliver_all Impl_init
            [ Callback_didCloseConsentLayer;
              Callback_didShowConsentLayer;
              Callback_didCloseConsentLayer ])
     = [event_didShowConsentLayer; event_didCloseConsentLayer].
Proof.
  destruct close_is_forwarded_only_after_show as (_ & Hspurious & Hgenuine).
  split.
  - apply Hspurious. reflexivity.
  - apply Hgenuine; reflexivity.
Defined.

(** C6.  [shouldHandleLinkClicks] is [false] on a new delegate,
    [didShowConsentLayer] sets it to [true], and a [didCloseConsentLayer]
    that sends its event sets it to [false].  While it is [false] the
    link-click handler sends nothing and returns [false]; an [onClickLink]
    event is sent from a state where it is [true] only, and is sent there as
    long as the emitter is alive. *)
Theorem link_click_gate :
  shouldHandleLinkClicks Impl_init = false
  /\ (forall self : Impl,
         shouldHandleLinkClicks (fst (didShowConsentLayer self)) = true)
  /\ (forall self : Impl,
         snd (didCloseConsentLayer self) <> [] ->
         shouldHandleLinkClicks (fst (didCloseConsentLayer self)) = false)
  /\ (forall (self : Impl) (urlString : string),
         shouldHandleLinkClicks self = false ->
         linkClickHandler (Some self) urlString = ([], false))
  /\ (forall (self : Impl) (c : Callback) (e : Event),
         In e (snd (deliver self c)) ->
         event_name e = "onClickLink" ->
         shouldHandleLinkClicks self = true)
  /\ (forall (self : Impl) (urlString : string),
         shouldHandleLinkClicks self = true ->
         eventEmitter self = true ->
         fst (linkClickHandler (Some self) urlString)
         = [mkEvent "onClickLink" (Some [("url", Any_String urlString)])]).
Proof.
  split; [reflexivity|].
  split; [reflexivity|].
  split; [|split; [|split]].
  - intros self H. unfold didCloseConsentLayer in *.
    destruct (isConsentLayerShown self); [reflexivity|]. now elim H.
  - intros self urlString H. simpl. rewrite H. reflexivity.
  - intros [emitter listeners shown gate] c e Hin Hname.
    destruct c as [consent jsonObject| | |error|oldStatus newStatus lastUpdated
                  |urlString|]; simpl in Hin.
    + destruct emitter; simpl in Hin; [|contradiction].
      destruct Hin as [<-|[]]. discriminate Hname.
    + destruct emitter; simpl in Hin; [|contradiction].
      destruct Hin as [<-|[]]. discriminate Hname.
    + destruct shown; simpl in Hin; [|contradiction].
      destruct emitter; simpl in Hin; [|contradiction].
      destruct Hin as [<-|[]]. discriminate Hname.
    + destruct emitter; simpl in Hin; [|contradiction].
      destruct Hin as [<-|[]]. discriminate Hname.
    + destruct emitter; simpl in Hin; [|contradiction].
      destruct Hin as [<-|[]]. discriminate Hname.
    + destruct gate; [reflexivity|contradiction].
    + contradiction.
  - intros self urlString Hgate Hemitter. simpl. rewrite Hgate.
    unfold sendEvent. rewrite Hemitter. reflexivity.
Qed.

Lemma link_click_gate_witness :
  linkClickHandler (Some Impl_init) "https://example.com/privacy" = ([], false)
  /\ fst (linkClickHandler (Some (fst (didShowConsentLayer Impl_init)))
            "https://example.com/privacy")
     = [mkEvent "onClickLink"
          (Some [("url", Any_String "https://example.com/privacy")])]
  /\ shouldHandleLinkClicks
       (fst (didCloseConsentLayer (fst (didShowConsentLayer Impl_init))))
     = false.
Proof.
  destruct link_click_gate as (_ & _ & Hclose & Hoff & _ & Hon).
  split; [|split].
  - apply Hoff. reflexivity.
  - apply Hon; reflexivity.
  - apply Hclose. discriminate.
Defined.

Section Delegate.
Variable UIColor : Type.
Variable UIColor_black : UIColor.
Variable RCTConvert_uiColor : ColorValue -> option UIColor.
Variable S : Type.
Variable cmpManager : CMPManager UIColor S.

(** C9.  In every state the delegate can reach, [isConsentLayerShown] and
    [shouldHandleLinkClicks] are equal.  Both are [false] on a new delegate;
    [didShowConsentLayer] sets both to [true]; [didCloseConsentLayer] sets
    both to [false] or changes nothing; the other callbacks, the link-click
    handler and the promise methods leave both as they are. *)
Theorem flags_agree_in_every_reachable_state :
  (forall self : Impl,
      reachable self -> isConsentLayerShown self = shouldHandleLinkClicks self)
  /\ (isConsentLayerShown Impl_init = false
      /\ shouldHandleLinkClicks Impl_init = false)
  /\ (forall self : Impl,
         isConsentLayerShown (fst (didShowConsentLayer self)) = true
         /\ shouldHandleLinkClicks (fst (didShowConsentLayer self)) = true)
  /\ (forall self : Impl,
         (isConsentLayerShown (fst (didCloseConsentLayer self)) = false
          /\ shouldHandleLinkClicks (fst (didCloseConsentLayer self)) = false)
         \/ fst (didCloseConsentLayer self) = self)
  /\ (forall (self : Impl) (c : Callback),
         c <> Callback_didShowConsentLayer ->
         c <> Callback_didCloseConsentLayer ->
         isConsentLayerShown (fst (deliver self c)) = isConsentLayerShown self
         /\ shouldHandleLinkClicks (fst (deliver self c))
            = shouldHandleLinkClicks self)
  /\ (forall (n : IOS S) (config : NativeWebViewConfig.t) (status : number)
             (cmpString : string),
         impl (snd (Spec_setWebViewConfig
                      (TurboModule UIColor_black RCTConvert_uiColor cmpManager)
                      config n)) = impl n
         /\ impl (snd (Spec_setATTStatus
                         (TurboModule UIColor_black RCTConvert_uiColor cmpManager)
                         status n)) = impl n
         /\ impl (snd (Spec_exportCMPInfo
                         (TurboModule UIColor_black RCTConvert_uiColor cmpManager)
                         n)) = impl n
         /\ impl (snd (Spec_importCMPInfo
                         (TurboModule UIColor_black RCTConvert_uiColor cmpManager)
                         cmpString n)) = impl n).
Proof.
  split; [|split; [|split; [|split; [|split]]]].
  - intros self H. induction H as [|self c H IH]; [reflexivity|].
    destruct self as [emitter listeners shown gate]. simpl in IH. subst gate.
    destruct c; simpl; try reflexivity.
    destruct shown; reflexivity.
  - split; reflexivity.
  - intros self. split; reflexivity.
  - intros self. unfold didCloseConsentLayer.
    destruct (isConsentLayerShown self);
      [left; split; reflexivity|right; reflexivity].
  - intros self c Hshow Hclose.
    destruct c; try (split; reflexivity); congruence.
  - intros n config status cmpString. simpl.
    unfold Impl_exportCMPInfo, Impl_importCMPInfo.
    destruct (CMPManager_exportCMPInfo cmpManager (shared n)).
    destruct (CMPManager_importCMPInfo cmpManager cmpString (shared n)).
    repeat split.
Qed.

End Delegate.

Lemma flags_agree_in_every_reachable_state_witness :
  isConsentLayerShown
    (fst (deliver (fst (deliver Impl_init Callback_didShowConsentLayer))
            (Callback_linkClick "https://example.com")))
  = shouldHandleLinkClicks
      (fst (deliver (fst (deliver Impl_init Callback_didShowConsentLayer))
              (Callback_linkClick "https://example.com"))).
Proof.
  destruct (flags_agree_in_every_reachable_state unit tt (fun _ => None)
              string example_cmpManager) as (H & _).
  apply H. apply reachable_deliver. apply reachable_deliver.
  apply reachable_init.
Defined.

(* ===================================================================== *)
(** * The Platform Geometry Resolver *)
(* ===================================================================== *)

(** Subtracting zero changes no binary64 value. *)
Lemma float_sub_0_r (a : float) : (a - 0)%float = a.
Proof.
  rewrite <- (SF2Prim_Prim2SF (a - 0)), sub_spec.
  rewrite <- (SF2Prim_Prim2SF a) at 2.
  f_equal.
  change (Prim2SF 0) with (S754_zero false).
  unfold SF64sub, SFsub.
  destruct (Prim2SF a) as [s|s| |s m e]; try reflexivity.
  destruct s; reflexivity.
Qed.

Lemma usableHeight_eq (scr : Screen) (respectsSafeArea : bool) :
  (CGRect.height (UIScreen_main_bounds scr)
   - (if respectsSafeArea
      then UIEdgeInsets.top (currentSafeAreaInsets scr)
           + UIEdgeInsets.bottom (currentSafeAreaInsets scr)
      else 0))%float
  = usable_height scr respectsSafeArea.
Proof. destruct respectsSafeArea; [reflexivity|apply float_sub_0_r]. Qed.

(** C7, amended.  A half-screen position gives a rectangle as wide as the
    screen and half the usable height high, the usable height being the
    screen height less the top and bottom insets when [respectsSafeArea] is
    true and the screen height otherwise; for ["halfScreenTop"] it starts at
    the top inset when [respectsSafeArea] is true and at 0 otherwise, and for
    ["halfScreenBottom"] half the usable height below that.  The custom
    position with its rectangle gives the rectangle moved in by the insets on
    each edge when [respectsSafeArea] is true, and by zero otherwise.  Every
    other position, or none, gives the full screen. *)
Theorem mapPosition_geometry (scr : Screen) (config : ConfigDictionary.t)
  (respectsSafeArea : bool) :
  (ConfigDictionary.position config = Some "halfScreenTop" ->
   mapPosition scr config respectsSafeArea
   = Position_custom
       (CGRect.mk 0 (top_edge scr respectsSafeArea)
          (CGRect.width (UIScreen_main_bounds scr))
          (usable_height scr respectsSafeArea / 2))%float)
  /\ (ConfigDictionary.position config = Some "halfScreenBottom" ->
      mapPosition scr config respectsSafeArea
      = Position_custom
          (CGRect.mk 0
             (top_edge scr respectsSafeArea
              + usable_height scr respectsSafeArea / 2)
             (CGRect.width (UIScreen_main_bounds scr))
             (usable_height scr respectsSafeArea / 2))%float)
  /\ (forall x y width height : float,
         ConfigDictionary.position config = Some "custom" ->
         ConfigDictionary.customRect config
         = Some (RectDictionary.mk (Some x) (Some y) (Some width) (Some height)) ->
         mapPosition scr config respectsSafeArea
         = Position_custom
             (if respectsSafeArea
              then CGRect.mk
                     (x + UIEdgeInsets.left (currentSafeAreaInsets scr))
                     (y + UIEdgeInsets.top (currentSafeAreaInsets scr))
                     (width - (UIEdgeInsets.left (currentSafeAreaInsets scr)
                               + UIEdgeInsets.right (currentSafeAreaInsets scr)))
                     (height - (UIEdgeInsets.top (currentSafeAreaInsets scr)
                                + UIEdgeInsets.bottom (currentSafeAreaInsets scr)))
              else CGRect.mk (x + 0) (y + 0) width height)%float)
  /\ (ConfigDictionary.position config <> Some "halfScreenTop" ->
      ConfigDictionary.position config <> Some "halfScreenBottom" ->
      ConfigDictionary.position config <> Some "custom" ->
      mapPosition scr config respectsSafeArea = Position_fullScreen).
Proof.
  unfold mapPosition, customRectOf.
  split; [|split; [|split]].
  - intros ->. simpl. rewrite usableHeight_eq. reflexivity.
  - intros ->. simpl. rewrite usableHeight_eq. reflexivity.
  - intros x y width height -> ->. simpl. unfold rectFromDictionary. simpl.
    destruct respectsSafeArea; [reflexivity|].
    simpl. change (0 + 0)%float with 0%float.
    rewrite !float_sub_0_r. reflexivity.
  - intros Htop Hbottom Hcustom.
    destruct (ConfigDictionary.position config) as [p|]; [|reflexivity].
    destruct (String.eqb_spec p "custom") as [->|_]; [congruence|].
    destruct (String.eqb_spec p "halfScreenTop") as [->|_]; [congruence|].
    destruct (String.eqb_spec p "halfScreenBottom") as [->|_]; [congruence|].
    reflexivity.
Qed.

Lemma mapPosition_geometry_witness :
  mapPosition iPhone
    (ConfigDictionary.mk (Some "halfScreenBottom") None None None None None)
    true
  = Position_custom (CGRect.mk 0 428.5 390 381.5)
  /\ mapPosition iPhone
       (ConfigDictionary.mk (Some "custom") None None None
          (Some (RectDictionary.mk
                   (Some 10%float) (Some 20%float)
                   (Some 300%float) (Some 400%float)))
          None)
       true
     = Position_custom (CGRect.mk 10 67 300 319)
  /\ mapPosition iPhone
       (ConfigDictionary.mk (Some "fullScreen") None None None None None) true
     = Position_fullScreen.
Proof.
  split; [|split].
  - destruct (mapPosition_geometry iPhone
                (ConfigDictionary.mk (Some "halfScreenBottom")
                   None None None None None)
                true) as (_ & H & _).
    apply H. reflexivity.
  - destruct (mapPosition_geometry iPhone
                (ConfigDictionary.mk (Some "custom") None None None
                   (Some (RectDictionary.mk
                            (Some 10%float) (Some 20%float)
                            (Some 300%float) (Some 400%float)))
                   None)
                true) as (_ & _ & H & _).
    apply (H 10 20 300 400)%float; reflexivity.
  - destruct (mapPosition_geometry iPhone
                (ConfigDictionary.mk (Some "fullScreen")
                   None None None None None)
                true) as (_ & _ & _ & H).
    apply H; discriminate.
Defined.

(** C7 as stated fails: with [respectsSafeArea] false and a top inset of 47,
    the ["halfScreenTop"] rectangle starts at 0, not at the top inset. *)
Lemma halfScreenTop_origin_is_not_always_the_top_inset :
  mapPosition iPhone
    (ConfigDictionary.mk (Some "halfScreenTop") None (Some false)
       None None None)
    false
  = Position_custom (CGRect.mk 0 0 390 422)
  /\ UIEdgeInsets.top (currentSafeAreaInsets iPhone) = 47%float
  /\ mapPosition iPhone
       (ConfigDictionary.mk (Some "halfScreenTop") None (Some false)
          None None None)
       false
     <> Position_custom
          (CGRect.mk 0 (UIEdgeInsets.top (currentSafeAreaInsets iPhone))
             390 422).
Proof.
  split; [reflexivity|split; [reflexivity|]].
  intros H.
  apply (f_equal (fun p => match p with
                           | Position_custom rect =>
                               PrimFloat.eqb (CGRect.y rect) 0
                           | Position_fullScreen => true
                           end)) in H.
  vm_compute in H. discriminate H.
Qed.

(* ===================================================================== *)
(** * The Bridge Call Surface: the CMP string *)
(* ===================================================================== *)



(** The cast of the glue on the four members of [ATTStatus]. *)
Lemma NSInteger_of_double_enumeration :
  map NSInteger_of_double
    [ ATTStatus.NotDetermined; ATTStatus.Restricted;
      ATTStatus.Denied; ATTStatus.Authorized ]
  = [0; 1; 2; 3]%Z.
Proof. reflexivity. Qed.

Section CMPInfo.
Variable UIColor : Type.
Variable UIColor_black : UIColor.
Variable RCTConvert_uiColor : ColorValue -> option UIColor.
Variable S : Type.
Variable cmpManager : CMPManager UIColor S.




End CMPInfo.



(* ===================================================================== *)
(** * Further properties of the delegate *)
(* ===================================================================== *)

(** X1.  A callback sends at most one event, so a sequence of callbacks sends
    at most as many events as it has callbacks. *)
Theorem at_most_one_event_per_callback :
  (forall (self : Impl) (c : Callback), length (snd (deliver self c)) <= 1)
  /\ (forall (cs : list Callback) (self : Impl),
         length (snd (deliver_all self cs)) <= length cs).
Proof.
  assert (Hone : forall (self : Impl) (c : Callback),
             length (snd (deliver self c)) <= 1).
  { intros [emitter listeners shown gate] c.
    destruct c; simpl; unfold sendEvent; simpl;
      try (destruct emitter; simpl; lia).
    - destruct shown; simpl; [destruct emitter; simpl; lia|lia].
    - destruct gate; simpl; [destruct emitter; simpl; lia|lia]. }
  split; [exact Hone|].
  induction cs as [|c cs IH]; intros self; [simpl; lia|].
  rewrite deliver_all_cons. simpl snd. rewrite length_app.
  specialize (Hone self c). specialize (IH (fst (deliver self c))).
  simpl length. lia.
Qed.

(** X2.  Closes are de-duplicated and shows are not: a
    [didCloseConsentLayer] right after another one sends nothing and changes
    nothing, whatever the state before; a [didShowConsentLayer] is sent every
    time while the emitter is alive, also when the layer is already marked
    shown. *)
Theorem closes_are_deduplicated_shows_are_not :
  (forall self : Impl,
      didCloseConsentLayer (fst (didCloseConsentLayer self))
      = (fst (didCloseConsentLayer self), []))
  /\ (forall self : Impl,
         eventEmitter self = true ->
         snd (deliver_all self
                [Callback_didShowConsentLayer; Callback_didShowConsentLayer])
         = [event_didShowConsentLayer; event_didShowConsentLayer]).
Proof.
  split.
  - intros [emitter listeners shown gate]. destruct shown; reflexivity.
  - intros [emitter listeners shown gate] H. simpl in H. subst emitter.
    reflexivity.
Qed.

Lemma closes_are_deduplicated_shows_are_not_witness :
  snd (deliver_all Impl_init
         [Callback_didShowConsentLayer; Callback_didShowConsentLayer])
  = [event_didShowConsentLayer; event_didShowConsentLayer].
Proof.
  destruct closes_are_deduplicated_shows_are_not as (_ & H).
  apply H. reflexivity.
Defined.

(** X3.  Once the emitter is released, no sequence of callbacks sends an
    event, and the emitter stays released. *)
Theorem released_emitter_sends_nothing (cs : list Callback) :
  forall self : Impl,
    eventEmitter self = false ->
    snd (deliver_all self cs) = []
    /\ eventEmitter (fst (deliver_all self cs)) = false.
Proof.
  induction cs as [|c cs IH]; intros self H; [split; [reflexivity|exact H]|].
  rewrite deliver_all_cons. simpl.
  destruct (released_emitter_stays_released self c H) as [H1 H2].
  destruct (IH _ H1) as [H3 H4].
  rewrite H2, H3. split; [reflexivity|exact H4].
Qed.

Lemma released_emitter_sends_nothing_witness :
  snd (deliver_all (fst (deliver Impl_init Callback_emitterReleased))
         [Callback_didShowConsentLayer; Callback_didReceiveError "offline"])
  = []
  /\ eventEmitter
       (fst (deliver_all (fst (deliver Impl_init Callback_emitterReleased))
               [Callback_didShowConsentLayer;
                Callback_didReceiveError "offline"]))
     = false.
Proof.
  apply (released_emitter_sends_nothing
           [Callback_didShowConsentLayer; Callback_didReceiveError "offline"]
           (fst (deliver Impl_init Callback_emitterReleased))).
  reflexivity.
Defined.

Lemma deliver_all_sent (cs : list Callback) :
  forall (self : Impl) (e : Event),
    In e (snd (deliver_all self cs)) ->
    exists (self' : Impl) (c : Callback), In e (snd (deliver self' c)).
Proof.
  induction cs as [|c cs IH]; intros self e Hin; [contradiction|].
  rewrite deliver_all_cons in Hin. simpl in Hin.
  apply in_app_or in Hin. destruct Hin as [Hin|Hin]; [eauto|].
  exact (IH _ e Hin).
Qed.

Lemma deliver_sends_supported (self : Impl) (c : Callback) (e : Event) :
  In e (snd (deliver self c)) -> In (event_name e) supportedEvents.
Proof.
  destruct self as [emitter listeners shown gate].
  destruct c; simpl; unfold sendEvent; simpl.
  - destruct emitter; simpl; [|contradiction].
    intros [<-|[]]. simpl. auto.
  - destruct emitter; simpl; [|contradiction].
    intros [<-|[]]. simpl. auto.
  - destruct shown; simpl; [|contradiction].
    destruct emitter; simpl; [|contradiction].
    intros [<-|[]]. simpl. auto.
  - destruct emitter; simpl; [|contradiction].
    intros [<-|[]]. simpl. auto.
  - destruct emitter; simpl; [|contradiction].
    intros [<-|[]]. simpl. auto 7.
  - destruct gate; simpl; [|contradiction].
    destruct emitter; simpl; [|contradiction].
    intros [<-|[]]. simpl. auto 7.
  - contradiction.
Qed.

(** X4.  Every event the delegate sends, after any sequence of callbacks from
    any state, has one of the names [supportedEvents] declares; and the event
    types the six JavaScript listener functions subscribe to are these names,
    in the same order. *)
Theorem sent_events_are_supported :
  (forall (cs : list Callback) (self : Impl) (e : Event),
      In e (snd (deliver_all self cs)) -> In (event_name e) supportedEvents)
  /\ map eventType
       [ addConsentListener; addShowConsentLayerListener;
         addCloseConsentLayerListener; addErrorListener;
         addClickLinkListener; addATTStatusChangeListener ]
     = supportedEvents.
Proof.
  split; [|reflexivity].
  intros cs self e Hin.
  destruct (deliver_all_sent cs self e Hin) as (self' & c & Hsent).
  exact (deliver_sends_supported self' c e Hsent).
Qed.

Lemma sent_events_are_supported_witness :
  In "didChangeATTStatus" supportedEvents.
Proof.
  destruct sent_events_are_supported as (H & _).
  apply (H [Callback_didChangeATTStatus 0 3 None] Impl_init
           (mkEvent "didChangeATTStatus"
              (Some [("oldStatus", Any_Int 0); ("newStatus", Any_Int 3);
                     ("lastUpdated", Any_Double 0)]))).
  simpl. auto.
Defined.



(** [String.prefix] and [contains] decide what their names say. *)
Lemma prefix_spec (sub s : string) :
  String.prefix sub s = true <-> exists after : string, s = (sub ++ after)%string.
Proof.
  revert s. induction sub as [|a sub IH]; intros s.
  - split; [intros _; exists s; reflexivity|intros _; destruct s; reflexivity].
  - destruct s as [|b s]; simpl.
    { split; [discriminate|intros [after H]; discriminate H]. }
    destruct (Ascii.ascii_dec a b) as [->|Hab].
    + rewrite IH. split; intros [after H]; exists after.
      * now rewrite H.
      * now injection H.
    + split; [discriminate|]. intros [after H]. injection H as H1 _.
      now elim Hab.
Qed.

Lemma contains_spec (s sub : string) :
  contains s sub = true <-> substring sub s.
Proof.
  unfold substring. induction s as [|a s IH]; cbn [contains].
  - rewrite orb_false_r, prefix_spec. split.
    + intros [after H]. exists "", after. exact H.
    + intros (before & after & H). destruct before; [eauto|discriminate H].
  - rewrite orb_true_iff, prefix_spec, IH. split.
    + intros [[after H]|(before & after & H)].
      * exists "", after. exact H.
      * exists (String a before), after. simpl. now rewrite H.
    + intros (before & after & H). destruct before as [|b before].
      * left. exists after. exact H.
      * right. simpl in H. injection H as _ H. eauto.
Qed.

(** X6.  With the gate open, the link-click handler keeps a link for the
    application (it returns [true]) exactly when the URL does not mention
    [google.com], or mentions [privacy] or [terms]; with the gate closed, or
    when the object is gone, it returns [false]. *)
Theorem link_click_decision :
  (forall (self : Impl) (urlString : string),
      shouldHandleLinkClicks self = true ->
      (snd (linkClickHandler (Some self) urlString) = true
       <-> (~ substring "google.com" urlString
            \/ substring "privacy" urlString
            \/ substring "terms" urlString)))
  /\ (forall (self : Impl) (urlString : string),
         shouldHandleLinkClicks self = false ->
         snd (linkClickHandler (Some self) urlString) = false)
  /\ (forall urlString : string,
         snd (linkClickHandler None urlString) = false).
Proof.
  split; [|split].
  - intros self urlString Hgate. unfold linkClickHandler. rewrite Hgate.
    simpl snd. rewrite <- !contains_spec.
    destruct (contains urlString "google.com");
      destruct (contains urlString "privacy");
      destruct (contains urlString "terms"); simpl;
      intuition congruence.
  - intros self urlString Hgate. unfold linkClickHandler. rewrite Hgate.
    reflexivity.
  - reflexivity.
Qed.

Lemma link_click_decision_witness :
  snd (linkClickHandler (Some (fst (didShowConsentLayer Impl_init)))
         "https://policies.google.com/privacy") = true
  /\ snd (linkClickHandler (Some Impl_init)
            "https://policies.google.com/privacy") = false.
Proof.
  destruct link_click_decision as (Hopen & Hclosed & _).
  split.
  - apply Hopen; [reflexivity|].
    right. left. exists "https://policies.google.com/", "". reflexivity.
  - apply Hclosed. reflexivity.
Defined.

(* ===================================================================== *)
(** * Further properties of the geometry resolver and of the Swift side *)
(* ===================================================================== *)

(** X7.  When [respectsSafeArea] is false the insets are not used: two
    screens with the same bounds give the same position, whatever their
    insets.  And without a key window the flag changes nothing. *)
Theorem mapPosition_ignores_insets_unless_asked :
  (forall (insets1 insets2 : option UIEdgeInsets.t) (bounds : CGRect.t)
          (config : ConfigDictionary.t),
      mapPosition (mkScreen insets1 bounds) config false
      = mapPosition (mkScreen insets2 bounds) config false)
  /\ (forall (bounds : CGRect.t) (config : ConfigDictionary.t),
         mapPosition (mkScreen None bounds) config true
         = mapPosition (mkScreen None bounds) config false).
Proof.
  split.
  - intros insets1 insets2 bounds [position radius safe orientation rect style].
    unfold mapPosition, customRectOf, rectFromDictionary. simpl.
    destruct position as [p|]; [|reflexivity].
    destruct (String.eqb p "custom"); [|reflexivity].
    destruct rect as [[[x|] [y|] [w|] [h|]]|]; reflexivity.
  - intros bounds [position radius safe orientation rect style].
    unfold mapPosition, customRectOf, rectFromDictionary. simpl.
    destruct position as [p|]; [|reflexivity].
    destruct (String.eqb p "custom"); [|reflexivity].
    destruct rect as [[[x|] [y|] [w|] [h|]]|]; reflexivity.
Qed.

(** X8.  The two half-screen rectangles have the same left edge, width and
    height, and the bottom one starts exactly where the top one ends. *)
Theorem half_screens_meet (scr : Screen) (top bottom : ConfigDictionary.t)
  (respectsSafeArea : bool) :
  ConfigDictionary.position top = Some "halfScreenTop" ->
  ConfigDictionary.position bottom = Some "halfScreenBottom" ->
  exists upper lower : CGRect.t,
    mapPosition scr top respectsSafeArea = Position_custom upper
    /\ mapPosition scr bottom respectsSafeArea = Position_custom lower
    /\ CGRect.x lower = CGRect.x upper
    /\ CGRect.width lower = CGRect.width upper
    /\ CGRect.height lower = CGRect.height upper
    /\ CGRect.y lower = (CGRect.y upper + CGRect.height upper)%float.
Proof.
  intros Htop Hbottom. unfold mapPosition, customRectOf.
  rewrite Htop, Hbottom. simpl.
  eexists. eexists. split; [reflexivity|]. split; [reflexivity|].
  simpl. auto.
Qed.

Lemma half_screens_meet_witness :
  exists upper lower : CGRect.t,
    mapPosition iPhone
      (ConfigDictionary.mk (Some "halfScreenTop") None None None None None)
      true = Position_custom upper
    /\ mapPosition iPhone
         (ConfigDictionary.mk (Some "halfScreenBottom") None None None None None)
         true = Position_custom lower
    /\ CGRect.x lower = CGRect.x upper
    /\ CGRect.width lower = CGRect.width upper
    /\ CGRect.height lower = CGRect.height upper
    /\ CGRect.y lower = (CGRect.y upper + CGRect.height upper)%float.
Proof.
  apply (half_screens_meet iPhone
           (ConfigDictionary.mk (Some "halfScreenTop") None None None None None)
           (ConfigDictionary.mk (Some "halfScreenBottom") None None None None None)
           true); reflexivity.
Defined.

(** X9.  For the position ["custom"], the resolver gives the full screen
    exactly when the dictionary has no [customRect] or the rectangle lacks
    one of its four coordinates; [rectFromDictionary] gives no rectangle
    exactly then. *)
Theorem custom_without_rectangle_is_full_screen (scr : Screen)
  (config : ConfigDictionary.t) (respectsSafeArea : bool) :
  ConfigDictionary.position config = Some "custom" ->
  (mapPosition scr config respectsSafeArea = Position_fullScreen
   <-> ~ exists x y width height : float,
         ConfigDictionary.customRect config
         = Some (RectDictionary.mk (Some x) (Some y) (Some width) (Some height)))
  /\ (forall dict : RectDictionary.t,
         rectFromDictionary scr dict respectsSafeArea = None
         <-> ~ exists x y width height : float,
               dict = RectDictionary.mk (Some x) (Some y) (Some width)
                        (Some height)).
Proof.
  intros Hcustom.
  assert (Hrect : forall dict : RectDictionary.t,
             rectFromDictionary scr dict respectsSafeArea = None
             <-> ~ exists x y width height : float,
                   dict = RectDictionary.mk (Some x) (Some y) (Some width)
                            (Some height)).
  { intros [[x|] [y|] [w|] [h|]]; unfold rectFromDictionary; simpl;
      (split;
       [ first [discriminate
               | intros _ (x' & y' & w' & h' & H); discriminate H]
       | intros H; first [reflexivity | elim H; eauto 6] ]). }
  split; [|exact Hrect].
  unfold mapPosition, customRectOf. rewrite Hcustom. simpl.
  destruct (ConfigDictionary.customRect config) as [dict|].
  - destruct (rectFromDictionary scr dict respectsSafeArea) as [rect|] eqn:Hr.
    + split; [discriminate|]. intros H. exfalso. apply H.
      destruct dict as [[x|] [y|] [w|] [h|]]; try discriminate Hr. eauto 6.
    + split; [|reflexivity]. intros _ (x & y & w & h & [= ->]).
      discriminate Hr.
  - split; [|reflexivity]. intros _ (x & y & w & h & H). discriminate H.
Qed.

Lemma custom_without_rectangle_is_full_screen_witness :
  mapPosition iPhone
    (ConfigDictionary.mk (Some "custom") None None None
       (Some (RectDictionary.mk (Some 10%float) None
                (Some 300%float) (Some 400%float)))
       None)
    true
  = Position_fullScreen.
Proof.
  destruct (custom_without_rectangle_is_full_screen iPhone
              (ConfigDictionary.mk (Some "custom") None None None
                 (Some (RectDictionary.mk (Some 10%float) None
                          (Some 300%float) (Some 400%float)))
                 None)
              true eq_refl) as (H & _).
  apply H. intros (x & y & w & h & E). discriminate E.
Defined.

Section Swift.
Variable UIColor : Type.
Variable UIColor_black : UIColor.
Variable RCTConvert_uiColor : ColorValue -> option UIColor.
Variable S : Type.
Variable cmpManager : CMPManager UIColor S.

Lemma Impl_setWebViewConfig_uiConfig (config : ConfigDictionary.t) (n : IOS S) :
  Impl_setWebViewConfig UIColor UIColor_black RCTConvert_uiColor S cmpManager
    config n
  = (Resolved tt,
     mkIOS (impl n)
       (CMPManager_setWebViewConfig cmpManager
          (uiConfig_of UIColor_black RCTConvert_uiColor (screen n) config)
          (shared n))
       (screen n)).
Proof. reflexivity. Qed.

(** X10.  [mapBackgroundStyle] has a style for every dictionary: dimmed black
    at 0.5 when there is no [backgroundStyle], no [type], or a type outside
    the four; black when the color of a dimmed or solid style is missing or
    cannot be converted; the dark blur when the blur style is neither
    ["extraLight"] nor ["light"]. *)
Theorem mapBackgroundStyle_fallbacks (config : ConfigDictionary.t) :
  (ConfigDictionary.backgroundStyle config = None ->
   mapBackgroundStyle UIColor UIColor_black RCTConvert_uiColor config
   = Background_dimmed UIColor_black 0.5%float)
  /\ (forall backgroundConfig : BackgroundDictionary.t,
         ConfigDictionary.backgroundStyle config = Some backgroundConfig ->
         (BackgroundDictionary.type backgroundConfig = None ->
          mapBackgroundStyle UIColor UIColor_black RCTConvert_uiColor config
          = Background_dimmed UIColor_black 0.5%float)
         /\ (forall type : string,
                BackgroundDictionary.type backgroundConfig = Some type ->
                ~ In type ["dimmed"; "color"; "blur"; "none"] ->
                mapBackgroundStyle UIColor UIColor_black RCTConvert_uiColor config
                = Background_dimmed UIColor_black 0.5%float)
         /\ (BackgroundDictionary.type backgroundConfig = Some "dimmed" ->
             RCTConvert_uiColor
               (BackgroundDictionary.color backgroundConfig ?? ColorString "black")
             = None ->
             mapBackgroundStyle UIColor UIColor_black RCTConvert_uiColor config
             = Background_dimmed UIColor_black
                 (BackgroundDictionary.opacity backgroundConfig ?? 0.5%float))
         /\ (BackgroundDictionary.type backgroundConfig = Some "color" ->
             RCTConvert_uiColor
               (BackgroundDictionary.color backgroundConfig ?? ColorString "black")
             = None ->
             mapBackgroundStyle UIColor UIColor_black RCTConvert_uiColor config
             = Background_color UIColor_black)
         /\ (BackgroundDictionary.type backgroundConfig = Some "blur" ->
             BackgroundDictionary.blurEffectStyle backgroundConfig
             <> Some "extraLight" ->
             BackgroundDictionary.blurEffectStyle backgroundConfig
             <> Some "light" ->
             mapBackgroundStyle UIColor UIColor_black RCTConvert_uiColor config
             = Background_blur UIBlurEffect_dark)).
Proof.
  unfold mapBackgroundStyle. split.
  - intros ->. reflexivity.
  - intros backgroundConfig ->. split; [|split; [|split; [|split]]].
    + intros ->. reflexivity.
    + intros type -> Hnot.
      destruct (String.eqb_spec type "dimmed") as [->|_];
        [elim Hnot; simpl; auto|].
      destruct (String.eqb_spec type "color") as [->|_];
        [elim Hnot; simpl; auto|].
      destruct (String.eqb_spec type "blur") as [->|_];
        [elim Hnot; simpl; auto|].
      destruct (String.eqb_spec type "none") as [->|_];
        [elim Hnot; simpl; auto|].
      reflexivity.
    + intros -> Hcolor. simpl. rewrite Hcolor. reflexivity.
    + intros -> Hcolor. simpl. rewrite Hcolor. reflexivity.
    + intros -> Hextra Hlight. simpl.
      destruct (BackgroundDictionary.blurEffectStyle backgroundConfig)
        as [style|]; [|reflexivity].
      simpl.
      destruct (String.eqb_spec style "extraLight") as [->|_];
        [now elim Hextra|].
      destruct (String.eqb_spec style "light") as [->|_];
        [now elim Hlight|].
      reflexivity.
Qed.

End Swift.

Lemma mapBackgroundStyle_fallbacks_witness :
  mapBackgroundStyle unit tt (fun _ => None)
    (ConfigDictionary.mk None None None None None
       (Some (BackgroundDictionary.mk (Some "gradient") None None None)))
  = Background_dimmed tt 0.5%float.
Proof.
  destruct (mapBackgroundStyle_fallbacks unit tt (fun _ => None)
              (ConfigDictionary.mk None None None None None
                 (Some (BackgroundDictionary.mk (Some "gradient")
                          None None None))))
    as (_ & H).
  destruct (H _ eq_refl) as (_ & Hunknown & _).
  apply (Hunknown "gradient" eq_refl).
  simpl. intros [H1|[H1|[H1|[H1|[]]]]]; discriminate H1.
Defined.

(** X11.  Through the TurboModule [setUrlConfig] always resolves, and the SDK
    gets the four strings as given and [noHash], false when omitted.  In
    Swift a dictionary that lacks one of the four strings is rejected with
    the message "Failed to set URL config: Invalid config parameters", and
    the SDK is not called. *)
Theorem setUrlConfig_resolves_or_leaves_the_SDK_alone {S : Type}
  (CMPManager_setUrlConfig : SdkUrlConfig -> S -> S) :
  (forall (config : UrlConfig.t) (n : IOS S),
      TurboModule_setUrlConfig CMPManager_setUrlConfig config n
      = (Resolved tt,
         mkIOS (impl n)
           (CMPManager_setUrlConfig
              (mkSdkUrlConfig (UrlConfig.id config) (UrlConfig.domain config)
                 (UrlConfig.language config) (UrlConfig.appName config)
                 (UrlConfig.noHash config ?? false))
              (shared n))
           (screen n)))
  /\ (forall (config : UrlDictionary.t) (n : IOS S),
         UrlDictionary.id config = None
         \/ UrlDictionary.domain config = None
         \/ UrlDictionary.language config = None
         \/ UrlDictionary.appName config = None ->
         Impl_setUrlConfig CMPManager_setUrlConfig config n
         = (Rejected "ERROR"
              "Failed to set URL config: Invalid config parameters",
            n)).
Proof.
  split.
  - intros [id domain language appName [noHash|]] n; reflexivity.
  - intros [[id|] [domain|] [language|] [appName|] noHash] n H;
      try reflexivity.
    destruct H as [H|[H|[H|H]]]; discriminate H.
Qed.

Lemma setUrlConfig_resolves_or_leaves_the_SDK_alone_witness :
  Impl_setUrlConfig (fun (c : SdkUrlConfig) (s : list SdkUrlConfig) => c :: s)
    (UrlDictionary.mk (Some "f5e3b73592c3c") None (Some "EN")
       (Some "CMDemoAppReactNative") (Some true))
    (mkIOS Impl_init [] iPhone)
  = (Rejected "ERROR" "Failed to set URL config: Invalid config parameters",
     mkIOS Impl_init [] iPhone).
Proof.
  destruct (setUrlConfig_resolves_or_leaves_the_SDK_alone
              (fun (c : SdkUrlConfig) (s : list SdkUrlConfig) => c :: s))
    as (_ & H).
  apply H. right. left. reflexivity.
Defined.

(** A number equal to a finite non-zero one has its sign, mantissa and
    exponent; a number equal to zero is a zero. *)
Lemma eqb_finite (c n : float) (s : bool) (m : positive) (e : Z) :
  Prim2SF c = S754_finite s m e ->
  PrimFloat.eqb c n = true ->
  Prim2SF n = S754_finite s m e.
Proof.
  intros Hc H. rewrite FloatAxioms.eqb_spec, Hc in H.
  unfold SFeqb, SFcompare in H.
  destruct (Prim2SF n) as [s'|s'| |s' m' e']; try discriminate H;
    try (destruct s; discriminate H); try (destruct s'; discriminate H).
  assert (He : e = e').
  { destruct s, s'; try discriminate H;
      destruct (Z.compare_spec e e') as [He|_|_];
      first [exact He | discriminate H]. }
  subst e'. rewrite Z.compare_refl in H.
  assert (Hm : Pos.compare_cont Eq m m' = Eq).
  { destruct s, s'; try discriminate H;
      destruct (Pos.compare_cont Eq m m'); first [reflexivity|discriminate H]. }
  apply Pos.compare_eq in Hm. subst m'.
  destruct s, s'; first [reflexivity|discriminate H].
Qed.

Lemma eqb_zero (n : float) :
  PrimFloat.eqb 0 n = true -> exists s : bool, Prim2SF n = S754_zero s.
Proof.
  intros H. rewrite FloatAxioms.eqb_spec in H.
  change (Prim2SF 0) with (S754_zero false) in H.
  unfold SFeqb, SFcompare in H.
  destruct (Prim2SF n) as [s'|s'| |s' m' e']; try discriminate H;
    try (destruct s'; discriminate H).
  exists s'. reflexivity.
Qed.

Section ATT_iOS.
Variable UIColor : Type.
Variable UIColor_black : UIColor.
Variable RCTConvert_uiColor : ColorValue -> option UIColor.
Variable S : Type.
Variable cmpManager : CMPManager UIColor S.

Lemma setATTStatus_iOS (n : number) (r : Realm (IOS S)) :
  (PrimFloat.eqb 0 n || PrimFloat.eqb 1 n
   || PrimFloat.eqb 2 n || PrimFloat.eqb 3 n)%float = true ->
  shared (native (snd (setATTStatus
                         (TurboModule UIColor_black RCTConvert_uiColor cmpManager)
                         n r)))
  = CMPManager_setATTStatus cmpManager (NSInteger_of_double n)
      (shared (native r)).
Proof.
  intros H. unfold setATTStatus. rewrite allowed_has, H. reflexivity.
Qed.

(** X12.  A status that [setATTStatus] accepts reaches the SDK as the integer
    it is equal to: 0 for a number equal to 0 (also for -0), and 1, 2, 3 for
    the numbers equal to 1, 2, 3. *)
Theorem accepted_status_reaches_the_SDK_as_its_integer (n : number)
  (r : Realm (IOS S)) :
  (PrimFloat.eqb 0 n = true ->
   shared (native (snd (setATTStatus
                          (TurboModule UIColor_black RCTConvert_uiColor
                             cmpManager) n r)))
   = CMPManager_setATTStatus cmpManager 0 (shared (native r)))
  /\ (PrimFloat.eqb 1 n = true ->
      shared (native (snd (setATTStatus
                             (TurboModule UIColor_black RCTConvert_uiColor
                                cmpManager) n r)))
      = CMPManager_setATTStatus cmpManager 1 (shared (native r)))
  /\ (PrimFloat.eqb 2 n = true ->
      shared (native (snd (setATTStatus
                             (TurboModule UIColor_black RCTConvert_uiColor
                                cmpManager) n r)))
      = CMPManager_setATTStatus cmpManager 2 (shared (native r)))
  /\ (PrimFloat.eqb 3 n = true ->
      shared (native (snd (setATTStatus
                             (TurboModule UIColor_black RCTConvert_uiColor
                                cmpManager) n r)))
      = CMPManager_setATTStatus cmpManager 3 (shared (native r))).
Proof.
  split; [|split; [|split]]; intros H.
  - rewrite setATTStatus_iOS by (rewrite H; reflexivity).
    destruct (eqb_zero n H) as [s Hn].
    unfold NSInteger_of_double. rewrite Hn. reflexivity.
  - rewrite setATTStatus_iOS by (rewrite H, !orb_true_r; reflexivity).
    unfold NSInteger_of_double.
    rewrite (eqb_finite 1 n _ _ _ eq_refl H). reflexivity.
  - rewrite setATTStatus_iOS by (rewrite H, !orb_true_r; reflexivity).
    unfold NSInteger_of_double.
    rewrite (eqb_finite 2 n _ _ _ eq_refl H). reflexivity.
  - rewrite setATTStatus_iOS by (rewrite H, !orb_true_r; reflexivity).
    unfold NSInteger_of_double.
    rewrite (eqb_finite 3 n _ _ _ eq_refl H). reflexivity.
Qed.

End ATT_iOS.

Lemma accepted_status_reaches_the_SDK_as_its_integer_witness :
  shared (native (snd (setATTStatus
                         (TurboModule tt (fun _ => None)
                            {| CMPManager_setWebViewConfig :=
                                 fun (_ : ConsentLayerUIConfig unit) (s : list Z) => s;
                               CMPManager_setATTStatus := fun status s => status :: s;
                               CMPManager_exportCMPInfo := fun s => ("", s);
                               CMPManager_importCMPInfo := fun _ s => (None, s) |})
                         (-0)%float
                         (mkRealm [] [] [] (mkIOS Impl_init [] iPhone)))))
  = [0%Z].
Proof.
  destruct (accepted_status_reaches_the_SDK_as_its_integer unit tt
              (fun _ => None) (list Z)
              {| CMPManager_setWebViewConfig :=
                   fun (_ : ConsentLayerUIConfig unit) (s : list Z) => s;
                 CMPManager_setATTStatus := fun status s => status :: s;
                 CMPManager_exportCMPInfo := fun s => ("", s);
                 CMPManager_importCMPInfo := fun _ s => (None, s) |}
              (-0)%float (mkRealm [] [] [] (mkIOS Impl_init [] iPhone)))
    as (H & _).
  apply H. reflexivity.
Defined.

(* ===================================================================== *)
(** * Further properties of the normalizer *)
(* ===================================================================== *)

Lemma read_customRect_app (h fresh : list object) (l : option loc)
  (rect : option WebViewRect.t) :
  read_customRect h l = Some rect -> read_customRect (h ++ fresh) l = Some rect.
Proof.
  destruct l as [l|]; [|exact (fun H => H)]. simpl.
  destruct (nth_error h l) as [o|] eqn:Hl; [|discriminate].
  rewrite nth_error_app1 by (apply nth_error_Some; congruence).
  rewrite Hl. exact (fun H => H).
Qed.

Section ByValue.
Context {N : Type}.
Variable CmSdkReactNativeV3 : Spec N.
Variable Platform_OS : string.
Variable processColor : ColorValue -> option number.

(** The arrow function of [backgroundStyle] computes [style_by_value]. *)
Lemma normalizeBackgroundStyle_by_value (cfg : WebViewConfig.t) (r : Realm N)
  (style : option WebViewBackgroundStyle.t) :
  read_backgroundStyle (heap r) (WebViewConfig.backgroundStyle cfg) = Some style ->
  match normalizeBackgroundStyle Platform_OS processColor cfg r,
        style_by_value processColor style with
  | (Normal l, r'), inr s' =>
      l = length (heap r)
      /\ heap r' = heap r ++ [Object_WebViewBackgroundStyle s']
      /\ bridge r' = bridge r /\ native r' = native r
      /\ console r'
         = console r
           ++ (if String.eqb Platform_OS "android"
               then match style with
                    | Some s =>
                        if String.eqb (WebViewBackgroundStyle.type s) "blur"
                        then ["[cm-sdk-react-native-v3] Android SDK ignores blur; using dimmed."]
                        else []
                    | None => []
                    end
               else [])
  | (Throw e, r'), inl e' => e = e' /\ r' = r
  | _, _ => False
  end.
Proof.
  unfold read_backgroundStyle, style_by_value, normalizeBackgroundStyle, bind,
    get_WebViewBackgroundStyle, normalizeColor.
  destruct (WebViewConfig.backgroundStyle cfg) as [l|].
  - destruct (nth_error (heap r) l) as [[rect|s|c]|]; try discriminate.
    intros [= <-]. destruct s as [type color opacity blur]. simpl.
    unfold BackgroundStyleType.Dimmed, BackgroundStyleType.Color,
      BackgroundStyleType.Blur, BackgroundStyleType.None.
    destruct (String.eqb_spec type "dimmed") as [->|Hdimmed].
    { simpl. destruct (processColor (color ?? ColorString "black")); simpl;
        [|split; reflexivity].
      destruct (String.eqb Platform_OS "android"); rewrite app_nil_r; repeat split. }
    destruct (String.eqb_spec type "color") as [->|Hcolor].
    { simpl. destruct color as [c|]; [|split; reflexivity].
      destruct (truthy_color c); [|split; reflexivity].
      destruct (processColor c); simpl; [|split; reflexivity].
      destruct (String.eqb Platform_OS "android"); rewrite app_nil_r; repeat split. }
    destruct (String.eqb_spec type "blur") as [->|Hblur].
    { simpl.
      unfold BlurEffectStyle.Dark, BlurEffectStyle.Light,
        BlurEffectStyle.ExtraLight.
      destruct (String.eqb (blur ?? "dark") "dark");
        destruct (String.eqb (blur ?? "dark") "light");
        destruct (String.eqb (blur ?? "dark") "extraLight");
        simpl; try (split; reflexivity);
        destruct (String.eqb Platform_OS "android"); simpl;
        rewrite ?app_nil_r; repeat split. }
    destruct (String.eqb_spec type "none") as [->|Hnone]; simpl; [|split; reflexivity].
    destruct (String.eqb Platform_OS "android"); rewrite app_nil_r; repeat split.
  - intros [= <-]. simpl.
    destruct (processColor (ColorString "black")); simpl; [|split; reflexivity].
    destruct (String.eqb Platform_OS "android"); rewrite app_nil_r; repeat split.
Qed.

Lemma requireCustomRect_by_value (cfg : WebViewConfig.t) (position : string)
  (r : Realm N) :
  requireCustomRect Platform_OS cfg position r
  = if String.eqb position "custom" then
      match WebViewConfig.customRect cfg with
      | None => (Throw Error_CustomRectRequired, r)
      | Some _ =>
          (Normal tt,
           mkRealm (heap r)
             (console r
              ++ (if String.eqb Platform_OS "android"
                  then ["[cm-sdk-react-native-v3] Android SDK ignores customRect; falling back to full screen."]
                  else []))
             (bridge r) (native r))
      end
    else (Normal tt, r).
Proof.
  unfold requireCustomRect. change WebViewPosition.Custom with "custom".
  destruct (String.eqb position "custom"); [|reflexivity].
  destruct (WebViewConfig.customRect cfg); [|reflexivity].
  destruct (String.eqb Platform_OS "android"); [reflexivity|].
  destruct r. unfold ret. simpl. rewrite app_nil_r. reflexivity.
Qed.

(** [normalizeWebViewConfig] against [normalize_by_value], with what the call
    does to the realm. *)
Lemma normalizeWebViewConfig_refines (config : loc) (r : Realm N)
  (raw : NativeWebViewConfig.t) :
  read_WebViewConfig (heap r) config = Some raw ->
  match normalizeWebViewConfig Platform_OS processColor config r,
        normalize_by_value processColor raw with
  | (Normal normalized, r'), inr out =>
      read_WebViewConfig (heap r') normalized = Some out
      /\ (exists fresh : list object, heap r' = heap r ++ fresh)
      /\ bridge r' = bridge r /\ native r' = native r
      /\ console r'
         = console r
           ++ (if String.eqb Platform_OS "android"
               then android_warnings raw else [])
  | (Throw e, r'), inl e' =>
      e = e' /\ heap r' = heap r /\ bridge r' = bridge r /\ native r' = native r
      /\ (String.eqb Platform_OS "android" = false -> console r' = console r)
  | _, _ => False
  end.
Proof.
  unfold read_WebViewConfig.
  destruct (nth_error (heap r) config) as [[rect0|style0|cfg]|] eqn:Hcfg;
    try discriminate.
  destruct (read_customRect (heap r) (WebViewConfig.customRect cfg))
    as [rect|] eqn:Hrect; [|discriminate].
  destruct (read_backgroundStyle (heap r) (WebViewConfig.backgroundStyle cfg))
    as [style|] eqn:Hstyle; [|discriminate].
  intros [= <-].
  unfold normalizeWebViewConfig, normalize_by_value, android_warnings.
  cbn [NativeWebViewConfig.position NativeWebViewConfig.customRect
       NativeWebViewConfig.cornerRadius NativeWebViewConfig.respectsSafeArea
       NativeWebViewConfig.allowsOrientationChanges
       NativeWebViewConfig.backgroundStyle].
  unfold bind at 1. unfold get_WebViewConfig. rewrite Hcfg.
  change allowedPositions
    with ["fullScreen"; "halfScreenTop"; "halfScreenBottom"; "custom"].
  change WebViewPosition.FullScreen with "fullScreen".
  destruct (negb (existsb _ _)); [simpl; auto 10|].
  unfold bind at 1. rewrite requireCustomRect_by_value.
  assert (Hnone : is_none rect = is_none (WebViewConfig.customRect cfg)).
  { destruct (WebViewConfig.customRect cfg) as [l|]; simpl in Hrect.
    - destruct (nth_error (heap r) l) as [[x|x|x]|]; try discriminate Hrect.
      injection Hrect as <-. reflexivity.
    - injection Hrect as <-. reflexivity. }
  rewrite Hnone.
  set (warn1 :=
         if String.eqb Platform_OS "android"
         then ["[cm-sdk-react-native-v3] Android SDK ignores customRect; falling back to full screen."]
         else []).
  set (r1 :=
         if String.eqb (WebViewConfig.position cfg ?? "fullScreen") "custom"
         then mkRealm (heap r) (console r ++ warn1) (bridge r) (native r)
         else r).
  assert (Hr1 : heap r1 = heap r /\ bridge r1 = bridge r /\ native r1 = native r
                /\ console r1
                   = console r
                     ++ (if String.eqb (WebViewConfig.position cfg ?? "fullScreen")
                                       "custom"
                         then warn1 else [])).
  { unfold r1.
    destruct (String.eqb (WebViewConfig.position cfg ?? "fullScreen") "custom");
      simpl; rewrite ?app_nil_r; auto. }
  destruct Hr1 as (Hh1 & Hb1 & Hn1 & Hc1).
  assert (Hstep :
            (if String.eqb (WebViewConfig.position cfg ?? "fullScreen") "custom"
             then match WebViewConfig.customRect cfg with
                  | Some _ =>
                      (Normal tt,
                       mkRealm (heap r) (console r ++ warn1) (bridge r) (native r))
                  | None => (Throw Error_CustomRectRequired, r)
                  end
             else (Normal tt, r))
            = if String.eqb (WebViewConfig.position cfg ?? "fullScreen") "custom"
                 && is_none (WebViewConfig.customRect cfg)
              then (Throw Error_CustomRectRequired, r)
              else (@Normal unit tt, r1)).
  { unfold r1.
    destruct (String.eqb (WebViewConfig.position cfg ?? "fullScreen") "custom");
      [|reflexivity].
    destruct (WebViewConfig.customRect cfg); reflexivity. }
  rewrite Hstep. clear Hstep.
  destruct (String.eqb (WebViewConfig.position cfg ?? "fullScreen") "custom"
            && is_none (WebViewConfig.customRect cfg)) eqn:Hcustom;
    [simpl; auto 10|].
  unfold bind at 1.
  assert (Hstyle1 : read_backgroundStyle (heap r1)
                      (WebViewConfig.backgroundStyle cfg) = Some style)
    by (rewrite Hh1; exact Hstyle).
  pose proof (normalizeBackgroundStyle_by_value cfg r1 style Hstyle1) as H2.
  destruct (normalizeBackgroundStyle Platform_OS processColor cfg r1)
    as [[l|e] r2];
    destruct (style_by_value processColor style) as [e'|s']; try contradiction.
  - destruct H2 as (-> & Hh2 & Hb2 & Hn2 & Hc2).
    unfold bind, console_warn, ret, new.
    assert (Hset : is_none (WebViewConfig.backgroundStyle cfg) = is_none style).
    { destruct (WebViewConfig.backgroundStyle cfg) as [l|]; simpl in Hstyle.
      - destruct (nth_error (heap r) l) as [[x|x|x]|]; try discriminate Hstyle.
        injection Hstyle as <-. reflexivity.
      - injection Hstyle as <-. reflexivity. }
    assert (Hflag : match WebViewConfig.backgroundStyle cfg with
                    | Some _ => true
                    | None => false
                    end = negb (is_none style)).
    { rewrite <- Hset. destruct (WebViewConfig.backgroundStyle cfg); reflexivity. }
    rewrite Hflag.
    assert (Hread : read_WebViewConfig
                      ((heap r
                        ++ [Object_WebViewBackgroundStyle s'])
                       ++ [Object_WebViewConfig
                             (WebViewConfig.mk
                                (Some (WebViewConfig.position cfg ?? "fullScreen"))
                                (WebViewConfig.customRect cfg)
                                (Some (WebViewConfig.cornerRadius cfg ?? 5%float))
                                (Some (WebViewConfig.respectsSafeArea cfg ?? true))
                                (Some (WebViewConfig.allowsOrientationChanges cfg
                                       ?? true))
                                (Some (length (heap r))))])
                      (length (heap r ++ [Object_WebViewBackgroundStyle s']))
                    = Some (NativeWebViewConfig.mk
                              (Some (WebViewConfig.position cfg ?? "fullScreen"))
                              rect
                              (Some (WebViewConfig.cornerRadius cfg ?? 5%float))
                              (Some (WebViewConfig.respectsSafeArea cfg ?? true))
                              (Some (WebViewConfig.allowsOrientationChanges cfg
                                     ?? true))
                              (Some s'))).
    { unfold read_WebViewConfig.
      rewrite nth_error_app2, Nat.sub_diag by lia.
      cbn [nth_error WebViewConfig.customRect WebViewConfig.backgroundStyle
           WebViewConfig.position WebViewConfig.cornerRadius
           WebViewConfig.respectsSafeArea
           WebViewConfig.allowsOrientationChanges].
      rewrite <- app_assoc.
      rewrite (read_customRect_app _ _ _ _ Hrect).
      cbn [read_backgroundStyle]. cbn [app].
      rewrite lookup_fresh_0. reflexivity. }
    destruct (String.eqb Platform_OS "android") eqn:Hos; simpl;
      destruct style as [s|]; simpl;
      rewrite ?Hh2, ?Hh1, ?Hb2, ?Hb1, ?Hn2, ?Hn1, ?Hc2, ?Hc1;
      (split; [exact Hread|]);
      (split; [eexists; rewrite <- app_assoc; reflexivity|]);
      (split; [reflexivity|]); (split; [reflexivity|]);
      unfold warn1; rewrite ?Hos;
      destruct (String.eqb (WebViewConfig.position cfg ?? "fullScreen") "custom");
      try destruct (String.eqb (WebViewBackgroundStyle.type s) "blur");
      simpl; rewrite <- ?app_assoc, ?app_nil_r; reflexivity.
  - destruct H2 as (-> & ->). simpl.
    repeat (split; [auto; fail|]).
    intros Hos. rewrite Hc1. unfold warn1. rewrite Hos.
    destruct (String.eqb (WebViewConfig.position cfg ?? "fullScreen") "custom");
      apply app_nil_r.
Qed.

(** X13.  [normalizeWebViewConfig] computes [normalize_by_value]: on a
    configuration that reads by value as [raw], it throws the error
    [normalize_by_value] gives, or it returns a reference that reads by value
    as the configuration [normalize_by_value] gives.  So the outcome depends
    on the content of the configuration only: not on the platform, and not on
    where the objects are in the heap. *)
Theorem normalizeWebViewConfig_by_value (config : loc) (r : Realm N)
  (raw : NativeWebViewConfig.t) :
  read_WebViewConfig (heap r) config = Some raw ->
  match normalizeWebViewConfig Platform_OS processColor config r,
        normalize_by_value processColor raw with
  | (Normal normalized, r'), inr out =>
      read_WebViewConfig (heap r') normalized = Some out
  | (Throw e, _), inl e' => e = e'
  | _, _ => False
  end.
Proof.
  intros Hraw.
  pose proof (normalizeWebViewConfig_refines config r raw Hraw) as H.
  destruct (normalizeWebViewConfig Platform_OS processColor config r)
    as [[normalized|e] r'];
    destruct (normalize_by_value processColor raw) as [e'|out];
    try contradiction.
  - exact (proj1 H).
  - exact (proj1 H).
Qed.

(** X14.  The warnings are for Android only and change nothing else: on
    Android a call that returns has written to the console the warning on
    [customRect] when the position is ["custom"], the one on blur when the
    style is a blur, and the one on [backgroundStyle] when one is given, in
    this order; on any other platform the console is as it was, whether the
    call returns or throws. *)
Theorem warnings_are_for_android_only (config : loc) (r : Realm N)
  (raw : NativeWebViewConfig.t) :
  read_WebViewConfig (heap r) config = Some raw ->
  (forall (normalized : loc) (r' : Realm N),
      normalizeWebViewConfig Platform_OS processColor config r
      = (Normal normalized, r') ->
      Platform_OS = "android" ->
      console r' = console r ++ android_warnings raw)
  /\ (Platform_OS <> "android" ->
      console (snd (normalizeWebViewConfig Platform_OS processColor config r))
      = console r).
Proof.
  intros Hraw.
  pose proof (normalizeWebViewConfig_refines config r raw Hraw) as H.
  split.
  - intros normalized r' Hrun ->. rewrite Hrun in H.
    destruct (normalize_by_value processColor raw) as [e'|out];
      [contradiction|].
    destruct H as (_ & _ & _ & _ & H). exact H.
  - intros Hos. apply String.eqb_neq in Hos.
    destruct (normalizeWebViewConfig Platform_OS processColor config r)
      as [[normalized|e] r'];
      destruct (normalize_by_value processColor raw) as [e'|out];
      try contradiction; simpl.
    + destruct H as (_ & _ & _ & _ & H). rewrite H, Hos. apply app_nil_r.
    + destruct H as (_ & _ & _ & _ & H). exact (H Hos).
Qed.

(** X15.  The position is checked first and the rectangle second: a position
    outside the four is the error thrown whatever else is wrong with the
    configuration, and ["custom"] without [customRect] is the error thrown
    whatever the background style. *)
Theorem position_errors_come_first (config : loc) (r : Realm N)
  (raw : NativeWebViewConfig.t) :
  read_WebViewConfig (heap r) config = Some raw ->
  (forall position : string,
      NativeWebViewConfig.position raw = Some position ->
      ~ In position allowedPositions ->
      fst (normalizeWebViewConfig Platform_OS processColor config r)
      = Throw (Error_InvalidPosition position))
  /\ (NativeWebViewConfig.position raw = Some "custom" ->
      NativeWebViewConfig.customRect raw = None ->
      fst (normalizeWebViewConfig Platform_OS processColor config r)
      = Throw Error_CustomRectRequired).
Proof.
  intros Hraw.
  pose proof (normalizeWebViewConfig_refines config r raw Hraw) as H.
  split.
  - intros position Hposition Hnot.
    unfold normalize_by_value in H. rewrite Hposition in H.
    cbn [nullish] in H.
    assert (Hex : existsb (String.eqb position)
                    ["fullScreen"; "halfScreenTop"; "halfScreenBottom"; "custom"]
                  = false).
    { destruct (existsb _ _) eqn:Hex; [|reflexivity].
      apply existsb_exists in Hex. destruct Hex as (p & Hin & Heq).
      apply String.eqb_eq in Heq. subst p. now elim Hnot. }
    rewrite Hex in H. cbn [negb] in H.
    destruct (normalizeWebViewConfig Platform_OS processColor config r)
      as [[normalized|e] r']; [contradiction|].
    destruct H as (-> & _). reflexivity.
  - intros Hposition Hrect.
    unfold normalize_by_value in H. rewrite Hposition, Hrect in H.
    cbn in H.
    destruct (normalizeWebViewConfig Platform_OS processColor config r)
      as [[normalized|e] r']; [contradiction|].
    destruct H as (-> & _). reflexivity.
Qed.

End ByValue.

Lemma normalizeWebViewConfig_by_value_witness :
  match normalizeWebViewConfig "android" mock_processColor 2
          (mkRealm custom_blur_heap [] [] tt),
        normalize_by_value mock_processColor custom_blur_raw with
  | (Normal normalized, r'), inr out =>
      read_WebViewConfig (heap r') normalized = Some out
  | (Throw e, _), inl e' => e = e'
  | _, _ => False
  end.
Proof.
  apply (normalizeWebViewConfig_by_value (N := unit) "android"
           mock_processColor 2 (mkRealm custom_blur_heap [] [] tt)
           custom_blur_raw).
  reflexivity.
Defined.

Lemma warnings_are_for_android_only_witness :
  console (snd (normalizeWebViewConfig "android" mock_processColor 2
                  (mkRealm custom_blur_heap [] [] tt)))
  = [ "[cm-sdk-react-native-v3] Android SDK ignores customRect; falling back to full screen.";
      "[cm-sdk-react-native-v3] Android SDK ignores blur; using dimmed.";
      "[cm-sdk-react-native-v3] Android SDK ignores backgroundStyle; using dimmed." ]
  /\ console (snd (normalizeWebViewConfig "ios" mock_processColor 2
                     (mkRealm custom_blur_heap [] [] tt)))
     = [].
Proof.
  split.
  - destruct (warnings_are_for_android_only (N := unit) "android"
                mock_processColor 2 (mkRealm custom_blur_heap [] [] tt)
                custom_blur_raw eq_refl) as (H & _).
    apply (H 4 (snd (normalizeWebViewConfig "android" mock_processColor 2
                       (mkRealm custom_blur_heap [] [] tt))));
      reflexivity.
  - destruct (warnings_are_for_android_only (N := unit) "ios"
                mock_processColor 2 (mkRealm custom_blur_heap [] [] tt)
                custom_blur_raw eq_refl) as (_ & H).
    apply H. discriminate.
Defined.

Lemma position_errors_come_first_witness :
  fst (normalizeWebViewConfig "ios" mock_processColor 1
         (mkRealm all_wrong_heap [] [] tt))
  = Throw (Error_InvalidPosition "bottom").
Proof.
  destruct (position_errors_come_first (N := unit) "ios" mock_processColor 1
              (mkRealm all_wrong_heap [] [] tt) all_wrong_raw eq_refl)
    as (H & _).
  apply (H "bottom" eq_refl).
  simpl. intros [H1|[H1|[H1|[H1|[]]]]]; discriminate H1.
Defined.

(** Every style and every configuration [normalize_by_value] gives is a
    normalized one. *)
Lemma style_by_value_normalized (processColor : ColorValue -> option number)
  (style : option WebViewBackgroundStyle.t) (s' : WebViewBackgroundStyle.t) :
  style_by_value processColor style = inr s' -> normalized_style s' = true.
Proof.
  unfold style_by_value.
  destruct style as [[type color opacity blur]|].
  - cbn [WebViewBackgroundStyle.type WebViewBackgroundStyle.color
         WebViewBackgroundStyle.opacity WebViewBackgroundStyle.blurEffectStyle].
    destruct (String.eqb_spec type "dimmed") as [->|Hdimmed].
    { destruct (processColor (color ?? ColorString "black"));
        [|discriminate]. intros [= <-]. reflexivity. }
    destruct (String.eqb_spec type "color") as [->|Hcolor].
    { destruct color as [c|]; [|discriminate].
      destruct (truthy_color c); [|discriminate].
      destruct (processColor c); [|discriminate]. intros [= <-]. reflexivity. }
    destruct (String.eqb_spec type "blur") as [->|Hblur].
    { destruct (existsb (String.eqb (blur ?? "dark"))
                  ["dark"; "light"; "extraLight"]) eqn:Hb; [|discriminate].
      intros [= <-]. unfold normalized_style. simpl. exact Hb. }
    destruct (String.eqb_spec type "none") as [->|Hnone]; [|discriminate].
    intros [= <-]. reflexivity.
  - destruct (processColor (ColorString "black")); [|discriminate].
    intros [= <-]. reflexivity.
Qed.

Lemma normalize_by_value_normalized
  (processColor : ColorValue -> option number)
  (raw out : NativeWebViewConfig.t) :
  normalize_by_value processColor raw = inr out -> normalized_config out = true.
Proof.
  unfold normalize_by_value.
  destruct (existsb (String.eqb (NativeWebViewConfig.position raw ?? "fullScreen"))
              ["fullScreen"; "halfScreenTop"; "halfScreenBottom"; "custom"])
    eqn:Hposition; [|discriminate].
  cbn [negb].
  destruct (String.eqb (NativeWebViewConfig.position raw ?? "fullScreen") "custom"
            && is_none (NativeWebViewConfig.customRect raw)) eqn:Hcustom;
    [discriminate|].
  destruct (style_by_value processColor (NativeWebViewConfig.backgroundStyle raw))
    as [e|s'] eqn:Hstyle; [discriminate|].
  intros [= <-]. unfold normalized_config.
  cbn [NativeWebViewConfig.position NativeWebViewConfig.customRect
       NativeWebViewConfig.cornerRadius NativeWebViewConfig.respectsSafeArea
       NativeWebViewConfig.allowsOrientationChanges
       NativeWebViewConfig.backgroundStyle is_none negb].
  rewrite Hposition, (style_by_value_normalized _ _ _ Hstyle).
  destruct (String.eqb (NativeWebViewConfig.position raw ?? "fullScreen") "custom");
    [|reflexivity].
  destruct (NativeWebViewConfig.customRect raw); [reflexivity|discriminate].
Qed.

Section Bridge.
Context {N : Type}.
Variable CmSdkReactNativeV3 : Spec N.
Variable Platform_OS : string.
Variable processColor : ColorValue -> option number.

(** [setWebViewConfig] on a configuration read by value. *)
Lemma setWebViewConfig_by_value (config : loc) (r : Realm N)
  (raw : NativeWebViewConfig.t) :
  read_WebViewConfig (heap r) config = Some raw ->
  match setWebViewConfig CmSdkReactNativeV3 Platform_OS processColor config r,
        normalize_by_value processColor raw with
  | (Normal promise, r'), inr out =>
      bridge r' = bridge r ++ [Call_setWebViewConfig out]
      /\ (promise, native r')
         = Spec_setWebViewConfig CmSdkReactNativeV3 out (native r)
  | (Throw e, r'), inl e' =>
      e = e' /\ bridge r' = bridge r /\ native r' = native r
  | _, _ => False
  end.
Proof.
  intros Hraw.
  pose proof (normalizeWebViewConfig_refines Platform_OS processColor config r
                raw Hraw) as H.
  unfold setWebViewConfig, bind.
  destruct (normalizeWebViewConfig Platform_OS processColor config r)
    as [[normalized|e] r1];
    destruct (normalize_by_value processColor raw) as [e'|out];
    try contradiction.
  - destruct H as (Hread & _ & Hbridge & Hnative & _).
    rewrite Hread. unfold invoke. rewrite Hnative.
    destruct (Spec_setWebViewConfig CmSdkReactNativeV3 out (native r))
      as [promise n].
    simpl. rewrite Hbridge. split; reflexivity.
  - destruct H as (-> & _ & Hbridge & Hnative & _). auto.
Qed.

(** X16.  When [setWebViewConfig] returns, one call has crossed the bridge,
    the native [setWebViewConfig], and its argument is a normalized
    configuration: the position is one of the four, with a rectangle when it
    is ["custom"]; the corner radius and the two flags are set; the
    background style has one of the four tags, a processed color when dimmed
    or solid, an opacity when dimmed, and one of the three blur styles when
    blur. *)
Theorem only_normalized_configurations_cross_the_bridge (config : loc)
  (r r' : Realm N) (raw : NativeWebViewConfig.t) (promise : Promise unit) :
  read_WebViewConfig (heap r) config = Some raw ->
  setWebViewConfig CmSdkReactNativeV3 Platform_OS processColor config r
  = (Normal promise, r') ->
  exists out : NativeWebViewConfig.t,
    bridge r' = bridge r ++ [Call_setWebViewConfig out]
    /\ normalized_config out = true
    /\ (promise, native r')
       = Spec_setWebViewConfig CmSdkReactNativeV3 out (native r).
Proof.
  intros Hraw Hrun.
  pose proof (setWebViewConfig_by_value config r raw Hraw) as H.
  rewrite Hrun in H.
  destruct (normalize_by_value processColor raw) as [e'|out] eqn:Hout;
    [contradiction|].
  destruct H as (Hbridge & Hcall).
  exists out. split; [exact Hbridge|]. split; [|exact Hcall].
  exact (normalize_by_value_normalized _ _ _ Hout).
Qed.

End Bridge.

Lemma only_normalized_configurations_cross_the_bridge_witness :
  exists out : NativeWebViewConfig.t,
    bridge (snd (setWebViewConfig mockNativeModule "ios" mock_processColor 2
                   (mkRealm custom_blur_heap [] [] tt)))
    = [Call_setWebViewConfig out]
    /\ normalized_config out = true
    /\ (Resolved tt, tt) = Spec_setWebViewConfig mockNativeModule out tt.
Proof.
  apply (only_normalized_configurations_cross_the_bridge mockNativeModule
           "ios" mock_processColor 2 (mkRealm custom_blur_heap [] [] tt)
           (snd (setWebViewConfig mockNativeModule "ios" mock_processColor 2
                   (mkRealm custom_blur_heap [] [] tt)))
           custom_blur_raw (Resolved tt)); reflexivity.
Defined.

Section Agreement.
Variable UIColor : Type.
Variable UIColor_black : UIColor.
Variable RCTConvert_uiColor : ColorValue -> option UIColor.
Variable processColor : ColorValue -> option number.

Lemma mapPosition_configDict (scr : Screen) (raw out : NativeWebViewConfig.t)
  (respectsSafeArea : bool) :
  normalize_by_value processColor raw = inr out ->
  mapPosition scr (configDict out) respectsSafeArea
  = mapPosition scr (configDict raw) respectsSafeArea.
Proof.
  unfold normalize_by_value.
  destruct (negb _); [discriminate|].
  destruct (_ && _); [discriminate|].
  destruct (style_by_value _ _); [discriminate|].
  intros [= <-].
  destruct raw as [[position|] rect radius safe orientation style];
    reflexivity.
Qed.

Lemma mapBackgroundStyle_configDict (raw out : NativeWebViewConfig.t) :
  normalize_by_value processColor raw = inr out ->
  same_but_color
    (mapBackgroundStyle UIColor UIColor_black RCTConvert_uiColor (configDict out))
    (mapBackgroundStyle UIColor UIColor_black RCTConvert_uiColor (configDict raw))
  /\ ((forall (c : ColorValue) (n : number),
          processColor c = Some n ->
          RCTConvert_uiColor (ColorNumber n) = RCTConvert_uiColor c) ->
      RCTConvert_uiColor (ColorString "black") ?? UIColor_black = UIColor_black ->
      mapBackgroundStyle UIColor UIColor_black RCTConvert_uiColor (configDict out)
      = mapBackgroundStyle UIColor UIColor_black RCTConvert_uiColor
          (configDict raw)).
Proof.
  unfold normalize_by_value.
  destruct (negb _); [discriminate|].
  destruct (_ && _); [discriminate|].
  destruct (style_by_value processColor (NativeWebViewConfig.backgroundStyle raw))
    as [e|s'] eqn:Hstyle; [discriminate|].
  intros [= <-].
  destruct raw as [position rect radius safe orientation style].
  cbn [NativeWebViewConfig.backgroundStyle] in Hstyle.
  unfold mapBackgroundStyle, configDict.
  cbn [NativeWebViewConfig.backgroundStyle ConfigDictionary.backgroundStyle
       option_map BackgroundDictionary.type BackgroundDictionary.color
       BackgroundDictionary.opacity BackgroundDictionary.blurEffectStyle].
  unfold style_by_value in Hstyle.
  destruct style as [[type color opacity blur]|].
  - cbn [WebViewBackgroundStyle.type WebViewBackgroundStyle.color
         WebViewBackgroundStyle.opacity WebViewBackgroundStyle.blurEffectStyle]
      in *.
    destruct (String.eqb_spec type "dimmed") as [->|Hdimmed].
    { destruct (processColor (color ?? ColorString "black")) as [n|] eqn:Hn;
        [|discriminate].
      injection Hstyle as <-. simpl.
      split; [destruct opacity; reflexivity|].
      intros Hagree _. rewrite (Hagree _ _ Hn).
      destruct opacity; reflexivity. }
    destruct (String.eqb_spec type "color") as [->|Hcolor].
    { destruct color as [c|]; [|discriminate].
      destruct (truthy_color c); [|discriminate].
      destruct (processColor c) as [n|] eqn:Hn; [|discriminate].
      injection Hstyle as <-. simpl.
      split; [exact I|].
      intros Hagree _. rewrite (Hagree _ _ Hn). reflexivity. }
    destruct (String.eqb_spec type "blur") as [->|Hblur].
    { destruct (existsb _ _); [|discriminate].
      injection Hstyle as <-. simpl.
      destruct blur; split; reflexivity. }
    destruct (String.eqb_spec type "none") as [->|Hnone]; [|discriminate].
    injection Hstyle as <-. simpl. split; [exact I|reflexivity].
  - destruct (processColor (ColorString "black")) as [n|] eqn:Hn;
      [|discriminate].
    injection Hstyle as <-. simpl.
    split; [reflexivity|].
    intros Hagree Hblack. rewrite (Hagree _ _ Hn), Hblack. reflexivity.
Qed.

(** X17.  What the normalizer fills in, the Swift side would have filled in
    itself: of a configuration the normalizer accepts, raw and normalized
    give the SDK the same position, corner radius and flags, and background
    styles of the same case, opacity and blur; and the same configuration
    altogether when [RCTConvert] reads a processed color as the color it was
    processed from, and ["black"] as black. *)
Theorem iOS_reads_raw_and_normalized_alike (scr : Screen)
  (raw out : NativeWebViewConfig.t) :
  normalize_by_value processColor raw = inr out ->
  let sent := uiConfig_of UIColor_black RCTConvert_uiColor scr (configDict out) in
  let direct := uiConfig_of UIColor_black RCTConvert_uiColor scr (configDict raw) in
  ui_position _ sent = ui_position _ direct
  /\ ui_cornerRadius _ sent = ui_cornerRadius _ direct
  /\ ui_respectsSafeArea _ sent = ui_respectsSafeArea _ direct
  /\ ui_allowsOrientationChanges _ sent = ui_allowsOrientationChanges _ direct
  /\ same_but_color (ui_backgroundStyle _ sent) (ui_backgroundStyle _ direct)
  /\ ((forall (c : ColorValue) (n : number),
          processColor c = Some n ->
          RCTConvert_uiColor (ColorNumber n) = RCTConvert_uiColor c) ->
      RCTConvert_uiColor (ColorString "black") ?? UIColor_black = UIColor_black ->
      sent = direct).
Proof.
  intros Hout sent direct.
  pose proof (mapBackgroundStyle_configDict raw out Hout) as (Hsame & Hequal).
  assert (Hradius : ConfigDictionary.cornerRadius (configDict out) ?? 5%float
                    = ConfigDictionary.cornerRadius (configDict raw) ?? 5%float).
  { revert Hout. unfold normalize_by_value.
    destruct (negb _); [discriminate|].
    destruct (_ && _); [discriminate|].
    destruct (style_by_value _ _); [discriminate|].
    intros [= <-]. destruct raw as [p c [radius|] s o b]; reflexivity. }
  assert (Hsafe : ConfigDictionary.respectsSafeArea (configDict out) ?? true
                  = ConfigDictionary.respectsSafeArea (configDict raw) ?? true).
  { revert Hout. unfold normalize_by_value.
    destruct (negb _); [discriminate|].
    destruct (_ && _); [discriminate|].
    destruct (style_by_value _ _); [discriminate|].
    intros [= <-]. destruct raw as [p c radius [s|] o b]; reflexivity. }
  assert (Horientation :
            ConfigDictionary.allowsOrientationChanges (configDict out) ?? true
            = ConfigDictionary.allowsOrientationChanges (configDict raw) ?? true).
  { revert Hout. unfold normalize_by_value.
    destruct (negb _); [discriminate|].
    destruct (_ && _); [discriminate|].
    destruct (style_by_value _ _); [discriminate|].
    intros [= <-]. destruct raw as [p c radius s [o|] b]; reflexivity. }
  subst sent direct. unfold uiConfig_of.
  cbn [ui_position ui_cornerRadius ui_respectsSafeArea
       ui_allowsOrientationChanges ui_backgroundStyle].
  rewrite Hradius, Hsafe, Horientation, (mapPosition_configDict _ _ _ _ Hout).
  repeat split; try reflexivity; try exact Hsame.
  intros Hagree Hblack. rewrite (Hequal Hagree Hblack). reflexivity.
Qed.

(** X18.  A ["custom"] position the normalizer accepts is a custom position
    for the SDK: the rectangle is there, and the fall back of [mapPosition]
    to the full screen is not taken. *)
Theorem accepted_custom_position_is_custom_on_iOS (scr : Screen)
  (raw out : NativeWebViewConfig.t) (respectsSafeArea : bool) :
  normalize_by_value processColor raw = inr out ->
  NativeWebViewConfig.position out = Some "custom" ->
  exists rect : WebViewRect.t,
    NativeWebViewConfig.customRect raw = Some rect
    /\ let insets :=
         if respectsSafeArea then currentSafeAreaInsets scr
         else UIEdgeInsets.zero in
       mapPosition scr (configDict out) respectsSafeArea
       = Position_custom
           (CGRect.mk
              (WebViewRect.x rect + UIEdgeInsets.left insets)
              (WebViewRect.y rect + UIEdgeInsets.top insets)
              (WebViewRect.width rect
               - (UIEdgeInsets.left insets + UIEdgeInsets.right insets))
              (WebViewRect.height rect
               - (UIEdgeInsets.top insets + UIEdgeInsets.bottom insets)))%float.
Proof.
  unfold normalize_by_value.
  destruct (negb _); [discriminate|].
  destruct (String.eqb (NativeWebViewConfig.position raw ?? "fullScreen") "custom"
            && is_none (NativeWebViewConfig.customRect raw)) eqn:Hcustom;
    [discriminate|].
  destruct (style_by_value _ _); [discriminate|].
  intros [= <-]. cbn [NativeWebViewConfig.position]. intros [= Hposition].
  rewrite Hposition in Hcustom. simpl in Hcustom.
  destruct (NativeWebViewConfig.customRect raw) as [rect|] eqn:Hrect;
    [|discriminate].
  exists rect. split; [reflexivity|].
  unfold mapPosition, customRectOf, configDict, rectFromDictionary.
  cbn [ConfigDictionary.position ConfigDictionary.customRect
       NativeWebViewConfig.position NativeWebViewConfig.customRect option_map
       RectDictionary.x RectDictionary.y RectDictionary.width
       RectDictionary.height].
  rewrite Hposition. reflexivity.
Qed.

End Agreement.

Lemma iOS_reads_raw_and_normalized_alike_witness :
  uiConfig_of tt (fun _ => Some tt) iPhone
    (configDict
       custom_blur_normalized)
  = uiConfig_of tt (fun _ => Some tt) iPhone (configDict custom_blur_raw).
Proof.
  destruct (iOS_reads_raw_and_normalized_alike unit tt (fun _ => Some tt)
              mock_processColor iPhone custom_blur_raw
              custom_blur_normalized
              eq_refl) as (_ & _ & _ & _ & _ & H).
  apply H; reflexivity.
Defined.

Lemma accepted_custom_position_is_custom_on_iOS_witness :
  exists rect : WebViewRect.t,
    NativeWebViewConfig.customRect custom_blur_raw = Some rect
    /\ mapPosition iPhone
         (configDict
            custom_blur_normalized)
         true
       = Position_custom
           (CGRect.mk
              (WebViewRect.x rect + 0) (WebViewRect.y rect + 47)
              (WebViewRect.width rect - (0 + 0))
              (WebViewRect.height rect - (47 + 34)))%float.
Proof.
  apply (accepted_custom_position_is_custom_on_iOS mock_processColor iPhone
           custom_blur_raw
           custom_blur_normalized
           true); reflexivity.
Defined.

Section EndToEnd.
Variable UIColor : Type.
Variable UIColor_black : UIColor.
Variable RCTConvert_uiColor : ColorValue -> option UIColor.
Variable S : Type.
Variable cmpManager : CMPManager UIColor S.
Variable Platform_OS : string.
Variable processColor : ColorValue -> option number.

(** X19.  From JavaScript to the SDK: when [setWebViewConfig] of [index.tsx]
    returns over the iOS module, its promise is resolved and the SDK has been
    given, once, the configuration the Swift side builds from the normalized
    one; the Swift object and the screen are as before. *)
Theorem setWebViewConfig_reaches_the_SDK (config : loc) (r r' : Realm (IOS S))
  (raw : NativeWebViewConfig.t) (promise : Promise unit) :
  read_WebViewConfig (heap r) config = Some raw ->
  setWebViewConfig (TurboModule UIColor_black RCTConvert_uiColor cmpManager)
    Platform_OS processColor config r
  = (Normal promise, r') ->
  exists out : NativeWebViewConfig.t,
    normalize_by_value processColor raw = inr out
    /\ promise = Resolved tt
    /\ native r'
       = mkIOS (impl (native r))
           (CMPManager_setWebViewConfig cmpManager
              (uiConfig_of UIColor_black RCTConvert_uiColor
                 (screen (native r)) (configDict out))
              (shared (native r)))
           (screen (native r)).
Proof.
  intros Hraw Hrun.
  pose proof (setWebViewConfig_by_value
                (TurboModule UIColor_black RCTConvert_uiColor cmpManager)
                Platform_OS processColor config r raw Hraw) as H.
  rewrite Hrun in H.
  destruct (normalize_by_value processColor raw) as [e'|out];
    [contradiction|].
  destruct H as (_ & Hcall).
  exists out. split; [reflexivity|].
  cbn [TurboModule Spec_setWebViewConfig] in Hcall.
  rewrite Impl_setWebViewConfig_uiConfig in Hcall.
  injection Hcall as -> ->. split; reflexivity.
Qed.

End EndToEnd.

Lemma setWebViewConfig_reaches_the_SDK_witness :
  exists out : NativeWebViewConfig.t,
    normalize_by_value mock_processColor custom_blur_raw = inr out
    /\ Resolved tt = Resolved tt
    /\ native (snd (setWebViewConfig
                      (TurboModule tt (fun _ => Some tt) recording_cmpManager)
                      "ios" mock_processColor 2
                      (mkRealm custom_blur_heap [] []
                         (mkIOS Impl_init [] iPhone))))
       = mkIOS Impl_init
           [uiConfig_of tt (fun _ => Some tt) iPhone (configDict out)]
           iPhone.
Proof.
  apply (setWebViewConfig_reaches_the_SDK unit tt (fun _ => Some tt) _
           recording_cmpManager "ios" mock_processColor 2
           (mkRealm custom_blur_heap [] [] (mkIOS Impl_init [] iPhone))
           (snd (setWebViewConfig
                   (TurboModule tt (fun _ => Some tt) recording_cmpManager)
                   "ios" mock_processColor 2
                   (mkRealm custom_blur_heap [] []
                      (mkIOS Impl_init [] iPhone))))
           custom_blur_raw (Resolved tt)); reflexivity.
Defined.

(** A style [style_by_value] gave, given to it again. *)
Lemma style_by_value_twice (processColor : ColorValue -> option number)
  (style : option WebViewBackgroundStyle.t) (s' : WebViewBackgroundStyle.t) :
  style_by_value processColor style = inr s' ->
  match style_by_value processColor (Some s') with
  | inr s'' =>
      WebViewBackgroundStyle.type s' = WebViewBackgroundStyle.type s''
      /\ WebViewBackgroundStyle.opacity s' = WebViewBackgroundStyle.opacity s''
      /\ WebViewBackgroundStyle.blurEffectStyle s'
         = WebViewBackgroundStyle.blurEffectStyle s''
  | inl e =>
      e = Error_ColorRequired
      \/ exists c : ColorValue, e = Error_InvalidColorValue c
  end.
Proof.
  assert (Hdimmed : forall (n : number) (o : number),
             match style_by_value processColor
                     (Some (WebViewBackgroundStyle.mk "dimmed"
                              (Some (ColorNumber n)) (Some o) None)) with
             | inr s'' =>
                 "dimmed" = WebViewBackgroundStyle.type s''
                 /\ Some o = WebViewBackgroundStyle.opacity s''
                 /\ None = WebViewBackgroundStyle.blurEffectStyle s''
             | inl e =>
                 e = Error_ColorRequired
                 \/ exists c : ColorValue, e = Error_InvalidColorValue c
             end).
  { intros n o. simpl. destruct (processColor (ColorNumber n)); simpl; eauto. }
  unfold style_by_value at 1.
  destruct style as [[type color opacity blur]|].
  - cbn [WebViewBackgroundStyle.type WebViewBackgroundStyle.color
         WebViewBackgroundStyle.opacity WebViewBackgroundStyle.blurEffectStyle].
    destruct (String.eqb_spec type "dimmed") as [->|Hd].
    { destruct (processColor (color ?? ColorString "black")) as [n|];
        [|discriminate].
      intros [= <-]. apply Hdimmed. }
    destruct (String.eqb_spec type "color") as [->|Hc].
    { destruct color as [c|]; [|discriminate].
      destruct (truthy_color c); [|discriminate].
      destruct (processColor c) as [n|]; [|discriminate].
      intros [= <-]. simpl.
      destruct (truthy_number n); [|left; reflexivity].
      destruct (processColor (ColorNumber n)); simpl; eauto. }
    destruct (String.eqb_spec type "blur") as [->|Hb].
    { destruct (existsb (String.eqb (blur ?? "dark"))
                  ["dark"; "light"; "extraLight"]) eqn:Hblur; [|discriminate].
      intros [= <-]. unfold style_by_value.
      cbn [WebViewBackgroundStyle.type WebViewBackgroundStyle.blurEffectStyle
           nullish String.eqb Ascii.eqb Bool.eqb].
      rewrite Hblur. auto. }
    destruct (String.eqb_spec type "none") as [->|Hn]; [|discriminate].
    intros [= <-]. simpl. auto.
  - destruct (processColor (ColorString "black")) as [n|]; [|discriminate].
    intros [= <-]. apply Hdimmed.
Qed.

Lemma normalize_by_value_twice (processColor : ColorValue -> option number)
  (raw out : NativeWebViewConfig.t) :
  normalize_by_value processColor raw = inr out ->
  match normalize_by_value processColor out with
  | inr again => same_but_style_color out again
  | inl e =>
      e = Error_ColorRequired
      \/ exists c : ColorValue, e = Error_InvalidColorValue c
  end.
Proof.
  unfold normalize_by_value at 1.
  destruct (existsb (String.eqb (NativeWebViewConfig.position raw ?? "fullScreen"))
              ["fullScreen"; "halfScreenTop"; "halfScreenBottom"; "custom"])
    eqn:Hposition; [|discriminate].
  cbn [negb].
  destruct (String.eqb (NativeWebViewConfig.position raw ?? "fullScreen") "custom"
            && is_none (NativeWebViewConfig.customRect raw)) eqn:Hcustom;
    [discriminate|].
  destruct (style_by_value processColor (NativeWebViewConfig.backgroundStyle raw))
    as [e|s'] eqn:Hstyle; [discriminate|].
  intros [= <-]. unfold normalize_by_value.
  cbn [NativeWebViewConfig.position NativeWebViewConfig.customRect
       NativeWebViewConfig.cornerRadius NativeWebViewConfig.respectsSafeArea
       NativeWebViewConfig.allowsOrientationChanges
       NativeWebViewConfig.backgroundStyle nullish].
  rewrite Hposition, Hcustom. cbn [negb].
  pose proof (style_by_value_twice _ _ _ Hstyle) as H.
  destruct (style_by_value processColor (Some s')) as [e|s'']; [exact H|].
  unfold same_but_style_color.
  cbn [NativeWebViewConfig.position NativeWebViewConfig.customRect
       NativeWebViewConfig.cornerRadius NativeWebViewConfig.respectsSafeArea
       NativeWebViewConfig.allowsOrientationChanges
       NativeWebViewConfig.backgroundStyle].
  repeat split; try reflexivity; apply H.
Qed.

Section Again.
Context {N : Type}.
Variable Platform_OS : string.
Variable processColor : ColorValue -> option number.

(** X20.  A configuration [normalizeWebViewConfig] returned, given to it
    again, is refused only for its color, required or invalid; and when it is
    not refused, the second result has the position, the rectangle, the
    corner radius, the flags, and the tag, opacity and blur style of the
    first: only the color of the background style may differ. *)
Theorem a_second_normalization_touches_only_the_color (config normalized : loc)
  (r r1 : Realm N) (raw : NativeWebViewConfig.t) :
  read_WebViewConfig (heap r) config = Some raw ->
  normalizeWebViewConfig Platform_OS processColor config r
  = (Normal normalized, r1) ->
  exists out : NativeWebViewConfig.t,
    read_WebViewConfig (heap r1) normalized = Some out
    /\ match normalizeWebViewConfig Platform_OS processColor normalized r1 with
       | (Normal again, r2) =>
           exists out' : NativeWebViewConfig.t,
             read_WebViewConfig (heap r2) again = Some out'
             /\ same_but_style_color out out'
       | (Throw e, _) =>
           e = Error_ColorRequired
           \/ exists c : ColorValue, e = Error_InvalidColorValue c
       end.
Proof.
  intros Hraw Hrun.
  pose proof (normalizeWebViewConfig_refines Platform_OS processColor config r
                raw Hraw) as H.
  rewrite Hrun in H.
  destruct (normalize_by_value processColor raw) as [e|out] eqn:Hout;
    [contradiction|].
  destruct H as (Hread & _).
  exists out. split; [exact Hread|].
  pose proof (normalizeWebViewConfig_refines Platform_OS processColor
                normalized r1 out Hread) as H2.
  pose proof (normalize_by_value_twice _ _ _ Hout) as Htwice.
  destruct (normalizeWebViewConfig Platform_OS processColor normalized r1)
    as [[again|e] r2];
    destruct (normalize_by_value processColor out) as [e'|out'];
    try contradiction.
  - destruct H2 as (Hread2 & _). exists out'. split; assumption.
  - destruct H2 as (-> & _). exact Htwice.
Qed.

(** X21.  [BackgroundStyle.dimmed()] without arguments is the default: of
    two configurations that differ only in that one has such a style as its
    [backgroundStyle] and the other has none, [normalizeWebViewConfig] throws
    the same error, or returns configurations that read the same by value.
    The consoles differ on Android only, where the first call has the
    warning on [backgroundStyle] after the lines of the second. *)
Theorem dimmed_without_arguments_is_the_default (styled plain : loc)
  (r : Realm N) (position : option string) (customRect : option WebViewRect.t)
  (cornerRadius : option number)
  (respectsSafeArea allowsOrientationChanges : option bool) :
  read_WebViewConfig (heap r) styled
  = Some (NativeWebViewConfig.mk position customRect cornerRadius
            respectsSafeArea allowsOrientationChanges
            (Some (BackgroundStyle.dimmed None None))) ->
  read_WebViewConfig (heap r) plain
  = Some (NativeWebViewConfig.mk position customRect cornerRadius
            respectsSafeArea allowsOrientationChanges None) ->
  match normalizeWebViewConfig Platform_OS processColor styled r,
        normalizeWebViewConfig Platform_OS processColor plain r with
  | (Normal a, ra), (Normal b, rb) =>
      (exists out : NativeWebViewConfig.t,
          read_WebViewConfig (heap ra) a = Some out
          /\ read_WebViewConfig (heap rb) b = Some out)
      /\ console ra
         = console rb
           ++ (if String.eqb Platform_OS "android"
               then ["[cm-sdk-react-native-v3] Android SDK ignores backgroundStyle; using dimmed."]
               else [])
  | (Throw e, _), (Throw e', _) => e = e'
  | _, _ => False
  end.
Proof.
  intros Hstyled Hplain.
  pose proof (normalizeWebViewConfig_refines Platform_OS processColor styled r
                _ Hstyled) as Ha.
  pose proof (normalizeWebViewConfig_refines Platform_OS processColor plain r
                _ Hplain) as Hb.
  assert (Hsame :
            normalize_by_value processColor
              (NativeWebViewConfig.mk position customRect cornerRadius
                 respectsSafeArea allowsOrientationChanges
                 (Some (BackgroundStyle.dimmed None None)))
            = normalize_by_value processColor
                (NativeWebViewConfig.mk position customRect cornerRadius
                   respectsSafeArea allowsOrientationChanges None))
    by reflexivity.
  rewrite Hsame in Ha.
  destruct (normalizeWebViewConfig Platform_OS processColor styled r)
    as [[a|e] ra];
    destruct (normalizeWebViewConfig Platform_OS processColor plain r)
      as [[b|e'] rb];
    destruct (normalize_by_value processColor
                (NativeWebViewConfig.mk position customRect cornerRadius
                   respectsSafeArea allowsOrientationChanges None))
      as [e0|out];
    try contradiction.
  - destruct Ha as (Hreada & _ & _ & _ & Hconsolea).
    destruct Hb as (Hreadb & _ & _ & _ & Hconsoleb).
    split; [exists out; split; assumption|].
    rewrite Hconsolea, Hconsoleb.
    destruct (String.eqb Platform_OS "android");
      [|rewrite !app_nil_r; reflexivity].
    unfold android_warnings.
    cbn [NativeWebViewConfig.position NativeWebViewConfig.backgroundStyle
         BackgroundStyle.dimmed WebViewBackgroundStyle.type].
    rewrite <- !app_assoc. reflexivity.
  - destruct Ha as (-> & _). destruct Hb as (-> & _). reflexivity.
Qed.

End Again.

Lemma a_second_normalization_touches_only_the_color_witness :
  exists out : NativeWebViewConfig.t,
    read_WebViewConfig
      (heap (snd (normalizeWebViewConfig "ios" mock_processColor 2
                    (mkRealm custom_blur_heap [] [] tt))))
      4
    = Some out
    /\ match normalizeWebViewConfig "ios" mock_processColor 4
               (snd (normalizeWebViewConfig "ios" mock_processColor 2
                       (mkRealm custom_blur_heap [] [] tt))) with
       | (Normal again, r2) =>
           exists out' : NativeWebViewConfig.t,
             read_WebViewConfig (heap r2) again = Some out'
             /\ same_but_style_color out out'
       | (Throw e, _) =>
           e = Error_ColorRequired
           \/ exists c : ColorValue, e = Error_InvalidColorValue c
       end.
Proof.
  apply (a_second_normalization_touches_only_the_color (N := unit) "ios"
           mock_processColor 2 4 (mkRealm custom_blur_heap [] [] tt)
           (snd (normalizeWebViewConfig "ios" mock_processColor 2
                   (mkRealm custom_blur_heap [] [] tt)))
           custom_blur_raw); reflexivity.
Defined.

Lemma dimmed_without_arguments_is_the_default_witness :
  match normalizeWebViewConfig "android" mock_processColor 1
          (mkRealm dimmed_default_heap [] [] tt),
        normalizeWebViewConfig "android" mock_processColor 2
          (mkRealm dimmed_default_heap [] [] tt) with
  | (Normal a, ra), (Normal b, rb) =>
      (exists out : NativeWebViewConfig.t,
          read_WebViewConfig (heap ra) a = Some out
          /\ read_WebViewConfig (heap rb) b = Some out)
      /\ console ra
         = console rb
           ++ ["[cm-sdk-react-native-v3] Android SDK ignores backgroundStyle; using dimmed."]
  | (Throw e, _), (Throw e', _) => e = e'
  | _, _ => False
  end.
Proof.
  apply (dimmed_without_arguments_is_the_default (N := unit) "android"
           mock_processColor 1 2 (mkRealm dimmed_default_heap [] [] tt)
           (Some "halfScreenTop") None None None None); reflexivity.
Defined.
